(** * Sleep Enforcer bot: escalation policy and reminder scheduler

    A shallow embedding of [discord-bot.py].  The escalation policy
    ([get_escalation_level], [get_ping_interval], [get_message]) is pure;
    the scheduler ([check_bedtime]) threads the two module globals
    [last_ping_time] and [escalation_level] explicitly; the Discord client
    is an interface whose calls thread an abstract world. *)

From Stdlib Require Import ZArith QArith Lqa String Ascii List Lia.
From stdpp Require Import base option gmap pretty.
Import ListNotations.

Local Open Scope string_scope.
Local Open Scope Z_scope.

(** ** Python values used by the program *)

(** Exceptions the modelled code can raise. *)
Inductive exn : Type :=
| KeyError
| ValueError
| OverflowError
| NotOwner.

(** Outcome of a call that may raise. *)
Inductive result (A : Type) : Type :=
| Ok (a : A)
| Raise (e : exn).
Arguments Ok {A} a.
Arguments Raise {A} e.

Definition rbind {A B : Type} (r : result A) (k : A -> result B) : result B :=
  match r with
  | Ok a => k a
  | Raise e => Raise e
  end.

Notation "'do' x <- r ; k" := (rbind r (fun x => k))
  (at level 10, x pattern, r at level 100, k at level 200).

(** ** Escalation policy *)

Module Policy.

(** [a < b] on rationals, as a boolean. *)
Definition Qltb (a b : Q) : bool := negb (Qle_bool b a).

(** [get_escalation_level]: [None] is Python's [None] ("too early"), the
    levels are the integers 0..4.  The argument is the float computed by
    [should_send_reminder]; every finite float is a rational and Python
    compares a float with an integer literal exactly, so the argument is
    modelled as a rational. *)
Definition get_escalation_level (minutes_past_bedtime : Q) : option Z :=
  if Qltb minutes_past_bedtime (-15) then None
  else if Qltb minutes_past_bedtime 0 then Some 0
  else if Qltb minutes_past_bedtime 5 then Some 1
  else if Qltb minutes_past_bedtime 15 then Some 2
  else if Qltb minutes_past_bedtime 25 then Some 3
  else Some 4.

(** The [intervals] dictionary of [get_ping_interval]. *)
Definition intervals : gmap Z Z :=
  <[0 := 900]> (<[1 := 300]> (<[2 := 300]> (<[3 := 120]> (<[4 := 60]> ∅)))).

(** [get_ping_interval]: [intervals.get(level, 300)], in seconds. *)
Definition get_ping_interval (level : Z) : Z :=
  default 300 (intervals !! level).

(** The [messages] dictionary of [get_message]. *)
Definition messages : gmap Z string :=
  <[0 := "⏰ **15 minutes until bedtime!** Start wrapping up what you're doing."]>
  (<[1 := "🛏️ **It's bedtime!** Time to sleep for a healthy tomorrow."]>
  (<[2 := "😴 **You should be in bed by now.** Please head to sleep."]>
  (<[3 := "⚠️ **SERIOUSLY, GO TO BED!** Your sleep schedule matters!"]>
  (<[4 := "🚨 **SLEEP NOW!!!** Every minute you delay affects your health! GO TO BED IMMEDIATELY!"]>
   ∅)))).

(** [get_message]: [messages.get(level, "Go to sleep!")]. *)
Definition get_message (level : Z) : string :=
  default "Go to sleep!" (messages !! level).

End Policy.

(** ** Configuration and the host's primitives *)

Module Config.

(** A JSON scalar as it may appear for an id in [config.json]. *)
Inductive cfg_val : Type :=
| JInt (n : Z)
| JStr (s : string).

(** The loaded [config] dictionary; an absent key is [None] (and an absent
    [user_ids] is the default [[]] of [config.get('user_ids', [])]). *)
Record config : Type := {
  bedtime : option string;
  user_ids : list cfg_val;
  server_id : option cfg_val;
  channel_id : option cfg_val
}.

(** Python truthiness of [config.get(key)]. *)
Definition truthy (v : option cfg_val) : bool :=
  match v with
  | None => false
  | Some (JInt n) => negb (Z.eqb n 0)
  | Some (JStr s) => negb (String.eqb s "")
  end.

(** [str.split(sep)] for a one-character separator. *)
Fixpoint split_on (sep : ascii) (s : string) : list string :=
  match s with
  | EmptyString => [""]
  | String c r =>
      if Ascii.eqb c sep then "" :: split_on sep r
      else match split_on sep r with
           | p :: ps => String c p :: ps
           | [] => [String c ""]
           end
  end.

(** The characters [int] skips around the digits of an ASCII string: tab,
    line feed, vertical tab, form feed, carriage return and space. *)
Definition is_space (c : ascii) : bool :=
  let n := Z.of_N (N_of_ascii c) in
  ((9 <=? n) && (n <=? 13)) || (n =? 32)%Z.

Fixpoint lstrip (s : string) : string :=
  match s with
  | EmptyString => ""
  | String c r => if is_space c then lstrip r else s
  end.

Fixpoint rstrip (s : string) : string :=
  match s with
  | EmptyString => ""
  | String c r =>
      let r' := rstrip r in
      if is_space c && String.eqb r' "" then "" else String c r'
  end.

Definition digit_val (c : ascii) : option Z :=
  let n := Z.of_N (N_of_ascii c) in
  if (48 <=? n) && (n <=? 57) then Some (n - 48) else None.

(** Decimal digits with single underscores allowed between digits. *)
Fixpoint digits (acc : Z) (after_digit : bool) (s : string) : option Z :=
  match s with
  | EmptyString => if after_digit then Some acc else None
  | String c r =>
      match digit_val c with
      | Some d => digits (10 * acc + d) true r
      | None =>
          if Ascii.eqb c "_" && after_digit then digits acc false r else None
      end
  end.

(** How many decimal digits [s] holds. *)
Fixpoint count_digits (s : string) : Z :=
  match s with
  | EmptyString => 0
  | String c r =>
      match digit_val c with
      | Some _ => 1 + count_digits r
      | None => count_digits r
      end
  end.

(** The longest digit string [int] converts (CPython 3.11 and later). *)
Definition max_str_digits : Z := 4300.

(** [int(s)] on an ASCII string, base 10: [ValueError] unless the stripped
    text is an optional sign followed by digits, at most
    [max_str_digits] of them.  A string with characters outside ASCII is
    answered [ValueError] as well, although [int] reads the decimal digits
    of other scripts: the properties that depend on it are stated for
    ASCII strings. *)
Definition py_int (s : string) : result Z :=
  let stripped := rstrip (lstrip s) in
  let body :=
    match stripped with
    | String "-" r => option_map Z.opp (digits 0 false r)
    | String "+" r => digits 0 false r
    | t => digits 0 false t
    end in
  match body with
  | Some n =>
      if max_str_digits <? count_digits stripped then Raise ValueError
      else Ok n
  | None => Raise ValueError
  end.

(** No character of [s] lies outside ASCII. *)
Fixpoint ascii_only (s : string) : bool :=
  match s with
  | EmptyString => true
  | String c r => (Z.of_N (N_of_ascii c) <? 128) && ascii_only r
  end.

(** [int(v)] on a configured id. *)
Definition int_of (v : cfg_val) : result Z :=
  match v with
  | JInt n => Ok n
  | JStr s => py_int s
  end.

End Config.

(** ** Dates and times *)

Module Clock.

(** A naive [datetime], as microseconds since the start of day 0; a
    [timedelta] is a difference of two of them. *)
Definition datetime : Type := Z.
Definition timedelta : Type := Z.

Definition usec_per_day : Z := 86400000000.

(** [dt.date()], as a day number. *)
Definition date_of (dt : datetime) : Z := dt / usec_per_day.

(** [datetime.time(hour, minute)]. *)
Record time : Type := { hour : Z; minute : Z }.

(** Whether [n] fits the C [int] the constructor converts its arguments
    to. *)
Definition fits_c_int (n : Z) : bool :=
  (-2147483648 <=? n) && (n <=? 2147483647).

(** The constructor first converts both arguments ([OverflowError] when
    one does not fit), then checks their ranges ([ValueError]). *)
Definition py_time (h m : Z) : result time :=
  if fits_c_int h && fits_c_int m then
    if (0 <=? h) && (h <=? 23) && (0 <=? m) && (m <=? 59)
    then Ok {| hour := h; minute := m |}
    else Raise ValueError
  else Raise OverflowError.

(** [datetime.combine(date, time)]. *)
Definition combine (d : Z) (t : time) : datetime :=
  d * usec_per_day + (hour t * 3600 + minute t * 60) * 1000000.

(** [timedelta.total_seconds()]. *)
Definition total_seconds (td : timedelta) : Q := td # 1000000.

(** A [datetime] from a day number and a wall-clock reading. *)
Definition at_time (day h m s : Z) : datetime :=
  day * usec_per_day + (h * 3600 + m * 60 + s) * 1000000.

End Clock.

(** ** The Discord client, as the bot uses it *)

Module Discord.

(** The calls the bot makes on the client.  A call that raises in Python
    (any [Exception], [discord.Forbidden] included: the bot's handlers
    differ only in the line they print) answers [None] or [false]; calls
    that reach the network thread the world. *)
Record Client : Type := {
  World : Type;
  User : Type;
  Guild : Type;
  Channel : Type;
  fetch_user : Z -> World -> option User * World;
  mention : User -> string;
  user_send : User -> string -> World -> bool * World;
  get_guild : Z -> World -> option Guild;
  get_channel : Guild -> Z -> option Channel;
  channel_send : Channel -> string -> World -> bool * World
}.

(** What a run hands to the client for delivery. *)
Inductive event (C : Client) : Type :=
| DM (u : User C) (text : string) (delivered : bool)
| Broadcast (ch : Channel C) (text : string) (delivered : bool).
Arguments DM {C} u text delivered.
Arguments Broadcast {C} ch text delivered.

Definition is_broadcast {C : Client} (e : event C) : bool :=
  match e with
  | Broadcast _ _ _ => true
  | DM _ _ _ => false
  end.

(** The users a trace addressed directly, in order. *)
Fixpoint dm_users {C : Client} (tr : list (event C)) : list (User C) :=
  match tr with
  | [] => []
  | DM u _ _ :: rest => u :: dm_users rest
  | Broadcast _ _ _ :: rest => dm_users rest
  end.

(** The users whose direct message was delivered, in order. *)
Fixpoint dm_delivered {C : Client} (tr : list (event C)) : list (User C) :=
  match tr with
  | [] => []
  | DM u _ true :: rest => u :: dm_delivered rest
  | _ :: rest => dm_delivered rest
  end.

End Discord.

(** ** The bot *)

Module Bot.
Import Policy Config Clock Discord.

(** The module globals [last_ping_time] and [escalation_level]. *)
Record SchedulerState : Type := {
  last_ping_time : option datetime;
  escalation_level : Z
}.

(** Their values when the module is loaded. *)
Definition initial_state : SchedulerState :=
  {| last_ping_time := None; escalation_level := 0 |}.

(** [should_send_reminder]: the minutes between [current] (the reading of
    [datetime.now()]) and today's bedtime.  [Ok None] stands for a Python
    [None] result, which [check_bedtime] tests for.  The program divides
    in floating point; the quotient is exact here.  The offset is a whole
    number of microseconds and the thresholds of [get_escalation_level]
    are whole minutes, so the rounded float lies on the same side of each
    threshold as the exact value. *)
Definition should_send_reminder (cfg : config) (current : datetime)
  : result (option Q) :=
  do b <- match bedtime cfg with Some b => Ok b | None => Raise KeyError end;
  do hm <- match split_on ":" b with
           | [h; m] => Ok (h, m)
           | _ => Raise ValueError
           end;
  do h <- py_int (fst hm);
  do m <- py_int (snd hm);
  do bt <- py_time h m;
  let bedtime_datetime := combine (date_of current) bt in
  let time_diff :=
    Qdiv (total_seconds (current - bedtime_datetime)) (inject_Z 60) in
  Ok (Some time_diff).

(** The test [last_ping_time is None or
    (now - last_ping_time).total_seconds() >= interval]; the seconds are
    exact here, and compare with a whole number of seconds as the rounded
    float does. *)
Definition ping_due (last : option datetime) (now : datetime) (interval : Z)
  : bool :=
  match last with
  | None => true
  | Some t => Qle_bool (inject_Z interval) (total_seconds (now - t))
  end.

(** Truthiness of a list. *)
Definition nonempty {A : Type} (l : list A) : bool :=
  match l with
  | [] => false
  | _ :: _ => true
  end.

Section WithClient.
Variable C : Client.

(** The [for user_id in user_ids] loop of [send_reminders]; [users] is the
    list being appended to, [tr] the deliveries handed over so far. *)
Fixpoint dm_loop (message : string) (ids : list cfg_val)
  (users : list (User C)) (w : World C) (tr : list (event C))
  : list (User C) * World C * list (event C) :=
  match ids with
  | [] => (users, w, tr)
  | user_id :: rest =>
      match int_of user_id with
      | Raise _ => dm_loop message rest users w tr
      | Ok n =>
          match fetch_user C n w with
          | (None, w1) => dm_loop message rest users w1 tr
          | (Some user, w1) =>
              let text := String.append (mention C user)
                            (String.append " " message) in
              match user_send C user text w1 with
              | (ok, w2) =>
                  dm_loop message rest (users ++ [user])%list w2
                    (tr ++ [DM user text ok])%list
              end
          end
      end
  end.

(** The body of the [try] that pings the server channel. *)
Definition server_ping (cfg : config) (message : string)
  (users : list (User C)) (w : World C) : World C * list (event C) :=
  match server_id cfg, channel_id cfg with
  | Some sv, Some cv =>
      match int_of sv with
      | Raise _ => (w, [])
      | Ok gid =>
          match get_guild C gid w with
          | None => (w, [])
          | Some guild =>
              match int_of cv with
              | Raise _ => (w, [])
              | Ok cid =>
                  match get_channel C guild cid with
                  | None => (w, [])
                  | Some channel =>
                      let mentions :=
                        String.concat " " (map (mention C) users) in
                      let text :=
                        String.append mentions (String.append " " message) in
                      match channel_send C channel text w with
                      | (ok, w') => (w', [Broadcast channel text ok])
                      end
                  end
              end
          end
      end
  | _, _ => (w, [])
  end.

(** [send_reminders]. *)
Definition send_reminders (cfg : config) (level : Z) (w : World C)
  : World C * list (event C) :=
  let message := get_message level in
  match user_ids cfg with
  | [] => (w, [])
  | ids =>
      match dm_loop message ids [] w [] with
      | (users, w1, tr) =>
          if truthy (server_id cfg) && truthy (channel_id cfg)
             && nonempty users
          then match server_ping cfg message users w1 with
               | (w2, tr2) => (w2, (tr ++ tr2)%list)
               end
          else (w1, tr)
      end
  end.

(** What one run of [check_bedtime] leaves behind: the globals, the level
    [send_reminders] was called with (if it was), the world and the
    deliveries handed over. *)
Record tick_result : Type := {
  state_after : SchedulerState;
  sent : option Z;
  world_after : World C;
  events : list (event C)
}.

(** [check_bedtime]: [current] is the clock reading taken inside
    [should_send_reminder], [now] the later one taken by the task itself.
    An exception leaves the globals as they were. *)
Definition check_bedtime (cfg : config) (st : SchedulerState)
  (current now : datetime) (w : World C) : result tick_result :=
  do minutes_past <- should_send_reminder cfg current;
  match minutes_past with
  | None =>
      Ok {| state_after := {| last_ping_time := None; escalation_level := 0 |};
            sent := None; world_after := w; events := [] |}
  | Some mp =>
      match get_escalation_level mp with
      | None =>
          Ok {| state_after := st; sent := None;
                world_after := w; events := [] |}
      | Some current_level =>
          let interval := get_ping_interval current_level in
          if ping_due (last_ping_time st) now interval then
            match send_reminders cfg current_level w with
            | (w', tr) =>
                Ok {| state_after := {| last_ping_time := Some now;
                                        escalation_level := current_level |};
                      sent := Some current_level;
                      world_after := w'; events := tr |}
            end
          else
            Ok {| state_after := {| last_ping_time := last_ping_time st;
                                    escalation_level := current_level |};
                  sent := None; world_after := w; events := [] |}
      end
  end.

(** The [tasks.loop] that drives [check_bedtime]: one run per pair of
    clock readings, collecting what each run sent; an exception ends the
    task with the globals as the last completed run left them. *)
Fixpoint task_loop (cfg : config) (readings : list (datetime * datetime))
  (st : SchedulerState) (w : World C)
  : SchedulerState * World C * list (option Z) * option exn :=
  match readings with
  | [] => (st, w, [], None)
  | (current, now) :: rest =>
      match check_bedtime cfg st current now w with
      | Raise e => (st, w, [], Some e)
      | Ok r =>
          match task_loop cfg rest (state_after r) (world_after r) with
          | (st', w', log, e) => (st', w', sent r :: log, e)
          end
      end
  end.

(** The replies of the [test] command. *)
Inductive reply : Type :=
| SentTestReminder (level : Z) (user_count : nat)
| LevelMustBeBetween0And4.

(** [test_reminder]: the command body.  It declares no global, so the
    scheduler's variables pass through. *)
Definition test_reminder (cfg : config) (st : SchedulerState) (level : Z)
  (w : World C) : SchedulerState * reply * World C * list (event C) :=
  if (0 <=? level) && (level <=? 4) then
    match send_reminders cfg level w with
    | (w', tr) =>
        (st, SentTestReminder level (length (user_ids cfg)), w', tr)
    end
  else (st, LevelMustBeBetween0And4, w, []).

(** The command behind its [@commands.is_owner()] check. *)
Definition test_command (caller_is_owner : bool) (cfg : config)
  (st : SchedulerState) (level : Z) (w : World C)
  : result (SchedulerState * reply * World C * list (event C)) :=
  if caller_is_owner then Ok (test_reminder cfg st level w)
  else Raise NotOwner.

End WithClient.

Arguments state_after {C} t.
Arguments sent {C} t.
Arguments world_after {C} t.
Arguments events {C} t.

(** [on_ready]: prints [config["bedtime"]], then starts the task. *)
Definition on_ready (cfg : config) : result unit :=
  match bedtime cfg with
  | Some _ => Ok tt
  | None => Raise KeyError
  end.

(** How the [__main__] block ends up. *)
Inductive startup : Type :=
| TokenNotFound
| LoginFailure
| OnReadyRaised (e : exn)
| LoopStarted.

(** The [__main__] block; [token] is [os.getenv('DISCORD_BOT_TOKEN')] and
    [accepted] tells whether Discord takes the token [bot.run] logs in
    with.  A refused login ends [bot.run] with [discord.LoginFailure]
    before [on_ready] is ever dispatched. *)
Definition start_bot (accepted : string -> bool) (token : option string)
  (cfg : config) : startup :=
  match token with
  | None => TokenNotFound
  | Some EmptyString => TokenNotFound
  | Some t =>
      if accepted t then
        match on_ready cfg with
        | Ok _ => LoopStarted
        | Raise e => OnReadyRaised e
        end
      else LoginFailure
  end.

(** The [__main__] block when Discord takes the token it is given. *)
Definition main (token : option string) (cfg : config) : startup :=
  start_bot (fun _ => true) token cfg.

End Bot.

(** ** Readings of the delivery and start-up rules *)

Module Delivery.
Import Policy Config Clock Discord Bot.

(** The channel the server ping goes to in world [w], when both ids
    convert, the guild is cached and has the channel. *)
Definition destination (C : Client) (cfg : config) (w : World C)
  : option (Channel C) :=
  match server_id cfg, channel_id cfg with
  | Some sv, Some cv =>
      match int_of sv, int_of cv with
      | Ok gid, Ok cid =>
          match get_guild C gid w with
          | Some guild => get_channel C guild cid
          | None => None
          end
      | _, _ => None
      end
  | _, _ => None
  end.

(** The text of a server ping that mentions [users]. *)
Definition ping_text (C : Client) (message : string) (users : list (User C))
  : string :=
  String.append (String.concat " " (map (mention C) users))
    (String.append " " message).

(** The rule "one broadcast exactly when a destination is configured and
    some direct message was delivered, mentioning the users it was
    delivered to", for one call of [send_reminders]. *)
Definition broadcast_iff_delivered (C : Client) (cfg : config) (level : Z)
  (w : World C) : Prop :=
  let tr := snd (send_reminders C cfg level w) in
  (existsb is_broadcast tr = true <->
     truthy (server_id cfg) && truthy (channel_id cfg) = true /\
     dm_delivered tr <> []) /\
  (forall ch text ok,
     In (Broadcast ch text ok) tr ->
     text = ping_text C (get_message level) (dm_delivered tr)).

(** A configuration error: no usable token, no bedtime, or a bedtime that
    is not an hour and a minute. *)
Definition configuration_error (token : option string) (cfg : config)
  : Prop :=
  token = None \/ token = Some "" \/
  exists e, forall t, should_send_reminder cfg t = Raise e.

(** The rule "every configuration error keeps the task from starting". *)
Definition configuration_errors_fatal : Prop :=
  forall (token : option string) (cfg : config),
    configuration_error token cfg -> main token cfg <> LoopStarted.

(** The text of the direct message to [user]. *)
Definition dm_text (C : Client) (message : string) (user : User C) : string :=
  String.append (mention C user) (String.append " " message).

(** The recipients that are fetched, in the order of the configured ids,
    each with the answer of [user_send] to its direct message, and the
    world after the last of them.  An id that does not convert, or whose
    user cannot be fetched, contributes nothing; a fetched user is listed
    whatever [user_send] answers. *)
Fixpoint direct_attempts (C : Client) (message : string)
  (ids : list cfg_val) (w : World C) : list (User C * bool) * World C :=
  match ids with
  | [] => ([], w)
  | user_id :: rest =>
      match int_of user_id with
      | Raise _ => direct_attempts C message rest w
      | Ok n =>
          match fetch_user C n w with
          | (None, w1) => direct_attempts C message rest w1
          | (Some user, w1) =>
              match user_send C user (dm_text C message user) w1 with
              | (ok, w2) =>
                  match direct_attempts C message rest w2 with
                  | (later, w3) => ((user, ok) :: later, w3)
                  end
              end
          end
      end
  end.

(** The direct message an attempt stands for. *)
Definition attempt_event (C : Client) (message : string)
  (a : User C * bool) : event C :=
  DM (fst a) (dm_text C message (fst a)) (snd a).

End Delivery.

(** ** A scripted client, for running the bot on concrete inputs *)

Module Sim.
Import Config Clock Discord Bot.

(** A client whose world counts the network calls made.  Users are their
    ids; [unknown] ids cannot be fetched, [blocked] users refuse direct
    messages, and one guild with one channel is in the cache. *)
Definition client (unknown blocked : list Z) (guild_id chan_id : Z)
  : Client :=
  {| World := nat;
     User := Z;
     Guild := Z;
     Channel := Z;
     fetch_user := fun n w =>
       (if existsb (Z.eqb n) unknown then None else Some n, S w);
     mention := fun u => String.append "<@" (String.append (pretty u) ">");
     user_send := fun u _ w => (negb (existsb (Z.eqb u) blocked), S w);
     get_guild := fun g _ => if Z.eqb g guild_id then Some g else None;
     get_channel := fun _ c => if Z.eqb c chan_id then Some c else None;
     channel_send := fun _ _ w => (true, S w) |}.

(** Everybody reachable, guild 1, channel 2. *)
Definition friendly : Client := client [] [] 1 2.

(** User 7 has direct messages disabled. *)
Definition dm_blocked : Client := client [] [7] 1 2.

Definition cfg_2230 : config :=
  {| bedtime := Some "22:30";
     user_ids := [JInt 7; JStr "8"];
     server_id := Some (JInt 1);
     channel_id := Some (JStr "2") |}.

Definition cfg_no_recipients : config :=
  {| bedtime := Some "22:30";
     user_ids := [];
     server_id := Some (JInt 1);
     channel_id := Some (JInt 2) |}.

Definition cfg_only_7 : config :=
  {| bedtime := Some "22:30";
     user_ids := [JInt 7];
     server_id := Some (JInt 1);
     channel_id := Some (JInt 2) |}.

(** A bedtime twenty minutes after midnight. *)
Definition cfg_0020 : config :=
  {| bedtime := Some "00:20";
     user_ids := [JInt 7];
     server_id := None;
     channel_id := None |}.

(** The same second read by both clock calls of a tick. *)
Definition tick_at (day h m s : Z) : datetime * datetime :=
  (at_time day h m s, at_time day h m s).

(** An hour and a minute no clock shows. *)
Definition cfg_malformed : config :=
  {| bedtime := Some "25:61";
     user_ids := [JInt 7];
     server_id := None;
     channel_id := None |}.

End Sim.

(** ** The [status] command *)

Module Commands.
Import Policy Config Clock Bot.

(** The [level_names] list of [status]. *)
Definition level_names : list string :=
  ["Pre-warning"; "Bedtime"; "5 min interval"; "2 min interval"; "SPAM MODE"].

(** [l[i]] on a Python list: a negative index counts from the end, and
    [None] stands for [IndexError]. *)
Definition py_index {A : Type} (l : list A) (i : Z) : option A :=
  let n := Z.of_nat (length l) in
  if (0 <=? i) && (i <? n) then nth_error l (Z.to_nat i)
  else if (- n <=? i) && (i <? 0) then nth_error l (Z.to_nat (n + i))
  else None.

(** [int(x)] on a float: the fraction is dropped, towards zero. *)
Definition int_trunc (x : Q) : Z := Z.quot (Qnum x) (Z.pos (Qden x)).

Definition newline : string := String "010"%char "".

Definition not_in_window : string := "✅ Not currently in reminder window.".

(** The f-string [status] sends inside the window. *)
Definition status_text (name : string) (level minutes : Z) : string :=
  String.append "Current escalation: **"
    (String.append name
      (String.append "** (Level "
        (String.append (pretty level)
          (String.append ")"
            (String.append newline
              (String.append "Minutes past bedtime: " (pretty minutes))))))).

(** How a call of [status] ends. *)
Inductive status_outcome : Type :=
| StatusReply (text : string)
| StatusRaised (e : exn)
| StatusIndexError.

(** [status]: [current] is the clock reading of [should_send_reminder];
    the reply is what [ctx.send] is given. *)
Definition status (cfg : config) (current : datetime) : status_outcome :=
  match should_send_reminder cfg current with
  | Raise e => StatusRaised e
  | Ok None => StatusReply not_in_window
  | Ok (Some minutes_past) =>
      match get_escalation_level minutes_past with
      | None => StatusReply not_in_window
      | Some current_level =>
          match py_index level_names current_level with
          | None => StatusIndexError
          | Some name =>
              StatusReply
                (status_text name current_level (int_trunc minutes_past))
          end
      end
  end.

End Commands.

(** ** Vocabulary for the properties of the scheduler *)

Module Reading.
Import Policy Config Clock Discord Bot.

(** How often [c] occurs in [s]. *)
Fixpoint count_char (c : ascii) (s : string) : nat :=
  match s with
  | EmptyString => O
  | String c' r => if Ascii.eqb c' c then S (count_char c r) else count_char c r
  end.

(** The bedtime a configured string stands for, as [should_send_reminder]
    reads it. *)
Definition parse_bedtime (b : string) : result time :=
  match split_on ":" b with
  | [hs; ms] =>
      do h <- py_int hs;
      do m <- py_int ms;
      py_time h m
  | _ => Raise ValueError
  end.

(** Microseconds since midnight. *)
Definition time_of_day (dt : datetime) : Z := dt mod usec_per_day.

(** The bedtime, in microseconds since midnight. *)
Definition bedtime_usec (bt : time) : Z :=
  (hour bt * 3600 + minute bt * 60) * 1000000.

(** The [now] readings of the runs that sent, given the readings of a run
    of the task and what each tick sent. *)
Fixpoint fired_nows (readings : list (datetime * datetime))
  (log : list (option Z)) : list datetime :=
  match readings, log with
  | (_, now) :: rs, Some _ :: ls => now :: fired_nows rs ls
  | _ :: rs, None :: ls => fired_nows rs ls
  | _, _ => []
  end.

(** Each time lies at least [gap] after the one before it, the first one
    after [last] if there is one. *)
Fixpoint spaced (gap : Z) (last : option datetime) (ts : list datetime)
  : Prop :=
  match ts with
  | [] => True
  | t :: rest =>
      match last with
      | None => True
      | Some l => l + gap <= t
      end /\ spaced gap (Some t) rest
  end.

(** A direct message made of the user's mention, a space and [message]. *)
Definition dm_of (C : Client) (message : string) (e : event C) : Prop :=
  match e with
  | DM u text _ =>
      text = String.append (mention C u) (String.append " " message)
  | Broadcast _ _ _ => False
  end.

End Reading.

(** * Properties *)

(** ** The escalation policy *)

Module PolicyFacts.
Import Policy.

Lemma Qltb_lt (a b : Q) : Qltb a b = true <-> (a < b)%Q.
Proof.
  unfold Qltb. rewrite negb_true_iff. split.
  - intros H. apply Qnot_le_lt. intros Hle.
    apply Qle_bool_iff in Hle. congruence.
  - intros H. destruct (Qle_bool b a) eqn:E; [|reflexivity].
    apply Qle_bool_iff in E. exfalso. exact (Qlt_not_le _ _ H E).
Qed.

Lemma Qltb_ge (a b : Q) : Qltb a b = false <-> (b <= a)%Q.
Proof.
  unfold Qltb. rewrite negb_false_iff. apply Qle_bool_iff.
Qed.

(** Split on every threshold test of [get_escalation_level], turning
    each into the order fact it decides. *)
Ltac thresholds :=
  repeat match goal with
  | |- context [Qltb ?a ?b] =>
      let E := fresh "E" in
      destruct (Qltb a b) eqn:E;
      [apply Qltb_lt in E | apply Qltb_ge in E]
  end.

(** C4: [get_escalation_level] is a total function of the offset and
    answers [None] exactly below -15, level 0 exactly on [-15, 0), 1 on
    [0, 5), 2 on [5, 15), 3 on [15, 25) and 4 from 25 on; each boundary
    belongs to the interval that starts there. *)
Theorem get_escalation_level_partition (m : Q) :
  (get_escalation_level m = None <-> (m < -15)%Q) /\
  (get_escalation_level m = Some 0 <->
     (-15 <= m)%Q /\ (m < 0)%Q) /\
  (get_escalation_level m = Some 1 <-> (0 <= m)%Q /\ (m < 5)%Q) /\
  (get_escalation_level m = Some 2 <-> (5 <= m)%Q /\ (m < 15)%Q) /\
  (get_escalation_level m = Some 3 <-> (15 <= m)%Q /\ (m < 25)%Q) /\
  (get_escalation_level m = Some 4 <-> (25 <= m)%Q) /\
  get_escalation_level (-15)%Q = Some 0 /\
  get_escalation_level 0 = Some 1 /\
  get_escalation_level 5 = Some 2 /\
  get_escalation_level 15 = Some 3 /\
  get_escalation_level 25 = Some 4.
Proof.
  repeat match goal with |- _ /\ _ => split end;
    try reflexivity;
    unfold get_escalation_level;
    thresholds;
    (split; [intros H; try discriminate; try (split; lra); try lra
            | intros H; try reflexivity; exfalso; lra]).
Qed.

(** An integer from 0 to 4 is one of the five level numbers. *)
Lemma level_cases (l : Z) :
  0 <= l <= 4 -> l = 0 \/ l = 1 \/ l = 2 \/ l = 3 \/ l = 4.
Proof. lia. Qed.

Lemma get_ping_interval_default (level : Z) :
  ~ (0 <= level <= 4) -> get_ping_interval level = 300.
Proof.
  intros H. unfold get_ping_interval, intervals.
  rewrite !lookup_insert_ne by lia.
  rewrite lookup_empty. reflexivity.
Qed.

(** C7: [get_ping_interval] answers 900, 300, 300, 120 and 60 seconds for
    the levels 0 to 4 and 300 for every other integer, so it never grows
    as the level rises from 0 to 4. *)
Theorem get_ping_interval_table :
  get_ping_interval 0 = 900 /\
  get_ping_interval 1 = 300 /\
  get_ping_interval 2 = 300 /\
  get_ping_interval 3 = 120 /\
  get_ping_interval 4 = 60 /\
  (forall level : Z, ~ (0 <= level <= 4) -> get_ping_interval level = 300) /\
  (forall a b : Z, 0 <= a -> a <= b -> b <= 4 ->
     get_ping_interval b <= get_ping_interval a).
Proof.
  repeat match goal with |- _ /\ _ => split end; try reflexivity.
  - exact get_ping_interval_default.
  - intros a b Ha Hab Hb.
    destruct (level_cases a) as [-> | [-> | [-> | [-> | ->]]]]; [lia | ..];
      destruct (level_cases b) as [-> | [-> | [-> | [-> | ->]]]];
      try lia; vm_compute; congruence.
Qed.

(** At an unknown level, and between levels 1 and 3. *)
Lemma get_ping_interval_table_witness :
  get_ping_interval 7 = 300 /\ get_ping_interval 3 <= get_ping_interval 1.
Proof.
  destruct get_ping_interval_table as (_ & _ & _ & _ & _ & Hdef & Hmono).
  split.
  - apply Hdef. lia.
  - apply Hmono; lia.
Defined.

End PolicyFacts.

(** ** The scheduler *)

Module SchedulerFacts.
Import Policy Config Clock Discord Bot PolicyFacts.

(** The rate-limit test, on microsecond timestamps. *)
Lemma ping_due_iff (last : option datetime) (now : datetime) (interval : Z) :
  ping_due last now interval = true <->
  last = None \/
  exists t, last = Some t /\ interval * 1000000 <= now - t.
Proof.
  unfold ping_due. destruct last as [t|].
  - rewrite Qle_bool_iff. unfold Qle, total_seconds, inject_Z. simpl.
    split.
    + intros H. right. exists t. split; [reflexivity | lia].
    + intros [H | (t' & Ht & H)]; [discriminate |].
      injection Ht as <-. lia.
  - split; [intros _; left; reflexivity | reflexivity].
Qed.

Lemma ping_due_false_iff (last : option datetime) (now : datetime)
  (interval : Z) :
  ping_due last now interval = false <->
  exists t, last = Some t /\ now - t < interval * 1000000.
Proof.
  split.
  - intros H. destruct last as [t|]; [|discriminate].
    exists t. split; [reflexivity |].
    destruct (Z_lt_le_dec (now - t) (interval * 1000000)) as [Hlt | Hle];
      [exact Hlt |].
    assert (Hd : ping_due (Some t) now interval = true).
    { apply ping_due_iff. right. exists t. split; [reflexivity | exact Hle]. }
    congruence.
  - intros (t & -> & Hlt).
    destruct (ping_due (Some t) now interval) eqn:E; [|reflexivity].
    apply ping_due_iff in E. destruct E as [E | (t' & Ht & Hle)];
      [discriminate |].
    injection Ht as <-. lia.
Qed.

(** [should_send_reminder] either raises or answers a number: it has no
    path that answers [None]. *)
Lemma should_send_reminder_cases (cfg : config) (current : datetime) :
  (exists q, should_send_reminder cfg current = Ok (Some q)) \/
  (exists e, should_send_reminder cfg current = Raise e).
Proof.
  unfold should_send_reminder.
  destruct (bedtime cfg) as [b|]; simpl; [|right; eauto].
  destruct (split_on ":" b) as [|h [|m [|x rest]]]; simpl;
    try (right; eauto; fail).
  destruct (py_int h) as [hh|e]; simpl; [|right; eauto].
  destruct (py_int m) as [mm|e]; simpl; [|right; eauto].
  destruct (py_time hh mm) as [bt|e]; simpl; [|right; eauto].
  left. eauto.
Qed.

(** Whether it raises depends on the configuration alone. *)
Lemma should_send_reminder_raise_any_time (cfg : config)
  (current current' : datetime) (e : exn) :
  should_send_reminder cfg current = Raise e ->
  should_send_reminder cfg current' = Raise e.
Proof.
  unfold should_send_reminder.
  destruct (bedtime cfg) as [b|]; simpl; [|trivial].
  destruct (split_on ":" b) as [|h [|m [|x rest]]]; simpl; trivial.
  destruct (py_int h) as [hh|e1]; simpl; [|trivial].
  destruct (py_int m) as [mm|e2]; simpl; [|trivial].
  destruct (py_time hh mm) as [bt|e3]; simpl; [|trivial].
  discriminate.
Qed.

Section WithClient.
Variable C : Client.

(** A tick whose offset has no level returns with everything as it was. *)
Lemma check_bedtime_out_of_window (cfg : config) (st : SchedulerState)
  (current now : datetime) (w : World C) (mp : Q) :
  should_send_reminder cfg current = Ok (Some mp) ->
  get_escalation_level mp = None ->
  check_bedtime C cfg st current now w =
  Ok {| state_after := st; sent := None; world_after := w; events := [] |}.
Proof.
  intros Hm Hl. unfold check_bedtime. rewrite Hm. simpl. rewrite Hl.
  reflexivity.
Qed.

(** A tick in the window whose rate-limit test passes. *)
Lemma check_bedtime_due (cfg : config) (st : SchedulerState)
  (current now : datetime) (w : World C) (mp : Q) (L : Z) :
  should_send_reminder cfg current = Ok (Some mp) ->
  get_escalation_level mp = Some L ->
  ping_due (last_ping_time st) now (get_ping_interval L) = true ->
  check_bedtime C cfg st current now w =
  Ok {| state_after := {| last_ping_time := Some now; escalation_level := L |};
        sent := Some L;
        world_after := fst (send_reminders C cfg L w);
        events := snd (send_reminders C cfg L w) |}.
Proof.
  intros Hm Hl Hd. unfold check_bedtime. rewrite Hm. simpl. rewrite Hl, Hd.
  destruct (send_reminders C cfg L w) as [w' tr]. reflexivity.
Qed.

(** A tick in the window whose rate-limit test fails. *)
Lemma check_bedtime_not_due (cfg : config) (st : SchedulerState)
  (current now : datetime) (w : World C) (mp : Q) (L : Z) :
  should_send_reminder cfg current = Ok (Some mp) ->
  get_escalation_level mp = Some L ->
  ping_due (last_ping_time st) now (get_ping_interval L) = false ->
  check_bedtime C cfg st current now w =
  Ok {| state_after := {| last_ping_time := last_ping_time st;
                          escalation_level := L |};
        sent := None; world_after := w; events := [] |}.
Proof.
  intros Hm Hl Hd. unfold check_bedtime. rewrite Hm. simpl. rewrite Hl, Hd.
  reflexivity.
Qed.

End WithClient.

(** The offset depends on the configuration through [bedtime] only. *)
Lemma should_send_reminder_bedtime (cfg cfg' : config) (current : datetime) :
  bedtime cfg' = bedtime cfg ->
  should_send_reminder cfg' current = should_send_reminder cfg current.
Proof.
  intros H. unfold should_send_reminder. rewrite H. reflexivity.
Qed.

(** With no recipient configured, [send_reminders] returns at once. *)
Lemma send_reminders_no_recipients (C : Client) (cfg : config) (level : Z)
  (w : World C) :
  user_ids cfg = [] -> send_reminders C cfg level w = (w, []).
Proof.
  intros H. unfold send_reminders. rewrite H. reflexivity.
Qed.

(** C5: a tick in the window at level [L] calls [send_reminders] and
    stores [now] in [last_ping_time] exactly when [last_ping_time] is
    [None] or at least [get_ping_interval L] seconds before [now];
    otherwise it sends nothing and keeps the stored time.  After a tick
    that fired at [now], a tick at the same level one second short of the
    interval sends nothing, and one a second past it sends once. *)
Theorem check_bedtime_rate_limit (C : Client) (cfg : config)
  (st : SchedulerState) (current now : datetime) (w : World C)
  (mp : Q) (L : Z) :
  should_send_reminder cfg current = Ok (Some mp) ->
  get_escalation_level mp = Some L ->
  exists r,
    check_bedtime C cfg st current now w = Ok r /\
    escalation_level (state_after r) = L /\
    (sent r = Some L <->
       last_ping_time st = None \/
       exists t, last_ping_time st = Some t /\
                 get_ping_interval L * 1000000 <= now - t) /\
    (sent r = Some L ->
       last_ping_time (state_after r) = Some now /\
       (world_after r, events r) = send_reminders C cfg L w) /\
    (sent r <> Some L ->
       sent r = None /\
       last_ping_time (state_after r) = last_ping_time st /\
       world_after r = w /\ events r = []) /\
    (sent r = Some L ->
     forall (current2 : datetime) (w2 : World C) (mp2 : Q),
       should_send_reminder cfg current2 = Ok (Some mp2) ->
       get_escalation_level mp2 = Some L ->
       (exists r2,
          check_bedtime C cfg (state_after r) current2
            (now + (get_ping_interval L - 1) * 1000000) w2 = Ok r2 /\
          sent r2 = None /\ events r2 = [] /\
          last_ping_time (state_after r2) = Some now) /\
       (exists r3,
          check_bedtime C cfg (state_after r) current2
            (now + (get_ping_interval L + 1) * 1000000) w2 = Ok r3 /\
          sent r3 = Some L /\
          last_ping_time (state_after r3) =
            Some (now + (get_ping_interval L + 1) * 1000000))).
Proof.
  intros Hm Hl.
  destruct (ping_due (last_ping_time st) now (get_ping_interval L)) eqn:Hd.
  - eexists. split; [exact (check_bedtime_due C _ _ _ _ _ _ _ Hm Hl Hd) |].
    simpl. split; [reflexivity |].
    split; [split; [intros _; apply ping_due_iff; exact Hd | reflexivity] |].
    split.
    { intros _. split; [reflexivity |].
      destruct (send_reminders C cfg L w); reflexivity. }
    split; [intros H; congruence |].
    intros _ current2 w2 mp2 Hm2 Hl2. split.
    + eexists. split.
      * apply (check_bedtime_not_due C _ _ _ _ _ _ _ Hm2 Hl2).
        apply ping_due_false_iff. simpl. eexists. split; [reflexivity | lia].
      * simpl. repeat split.
    + eexists. split.
      * apply (check_bedtime_due C _ _ _ _ _ _ _ Hm2 Hl2).
        apply ping_due_iff. right. simpl. eexists.
        split; [reflexivity | lia].
      * simpl. split; reflexivity.
  - eexists.
    split; [exact (check_bedtime_not_due C _ _ _ _ _ _ _ Hm Hl Hd) |].
    simpl. split; [reflexivity |].
    split.
    { split; [discriminate |]. intros H. apply ping_due_iff in H.
      congruence. }
    split; [discriminate |].
    split; [intros _; repeat split | discriminate].
Qed.

(** C9: [should_send_reminder] never answers [None]: it answers a number,
    or the configured bedtime makes it raise at every time.  So a tick
    never sets a stored [last_ping_time] back to [None], and a tick whose
    offset has no level leaves both globals as they were. *)
Theorem should_send_reminder_never_None (C : Client) (cfg : config)
  (st : SchedulerState) (current now : datetime) (w : World C) :
  should_send_reminder cfg current <> Ok None /\
  ((exists q, should_send_reminder cfg current = Ok (Some q)) \/
   (exists e, forall t, should_send_reminder cfg t = Raise e)) /\
  (forall r t,
     check_bedtime C cfg st current now w = Ok r ->
     last_ping_time st = Some t ->
     last_ping_time (state_after r) <> None) /\
  (forall mp,
     should_send_reminder cfg current = Ok (Some mp) ->
     get_escalation_level mp = None ->
     check_bedtime C cfg st current now w =
     Ok {| state_after := st; sent := None; world_after := w; events := [] |}).
Proof.
  split; [| split; [| split]].
  - destruct (should_send_reminder_cases cfg current) as [(q & ->) | (e & ->)];
      discriminate.
  - destruct (should_send_reminder_cases cfg current) as [(q & Hq) | (e & He)].
    + left. eauto.
    + right. exists e. intros t.
      exact (should_send_reminder_raise_any_time _ _ _ _ He).
  - intros r t Hr Hst.
    destruct (should_send_reminder_cases cfg current) as [(q & Hq) | (e & He)].
    + destruct (get_escalation_level q) as [L|] eqn:Hl.
      * destruct (ping_due (last_ping_time st) now (get_ping_interval L))
          eqn:Hd.
        -- rewrite (check_bedtime_due C _ _ _ _ _ _ _ Hq Hl Hd) in Hr.
           injection Hr as <-. discriminate.
        -- rewrite (check_bedtime_not_due C _ _ _ _ _ _ _ Hq Hl Hd) in Hr.
           injection Hr as <-. simpl. congruence.
      * rewrite (check_bedtime_out_of_window C _ _ _ _ _ _ Hq Hl) in Hr.
        injection Hr as <-. simpl. congruence.
    + unfold check_bedtime in Hr. rewrite He in Hr. discriminate.
  - intros mp. apply check_bedtime_out_of_window.
Qed.

(** C10: with an empty recipient list a due tick in the window still
    stores [now] in [last_ping_time], although [send_reminders] hands
    nothing over; the globals end as they do under any other recipient
    list, and a later tick within the interval is held back. *)
Theorem empty_recipients_still_rate_limits (C : Client) (cfg : config)
  (st : SchedulerState) (current now : datetime) (w : World C)
  (mp : Q) (L : Z) :
  user_ids cfg = [] ->
  should_send_reminder cfg current = Ok (Some mp) ->
  get_escalation_level mp = Some L ->
  ping_due (last_ping_time st) now (get_ping_interval L) = true ->
  let fired := {| last_ping_time := Some now; escalation_level := L |} in
  send_reminders C cfg L w = (w, []) /\
  check_bedtime C cfg st current now w =
    Ok {| state_after := fired; sent := Some L;
          world_after := w; events := [] |} /\
  (forall (cfg' : config) (w' : World C),
     bedtime cfg' = bedtime cfg ->
     exists r', check_bedtime C cfg' st current now w' = Ok r' /\
                state_after r' = fired) /\
  (forall (current2 now2 : datetime) (w2 : World C) (mp2 : Q) (L2 : Z),
     should_send_reminder cfg current2 = Ok (Some mp2) ->
     get_escalation_level mp2 = Some L2 ->
     now2 - now < get_ping_interval L2 * 1000000 ->
     check_bedtime C cfg fired current2 now2 w2 =
       Ok {| state_after := {| last_ping_time := Some now;
                               escalation_level := L2 |};
             sent := None; world_after := w2; events := [] |}).
Proof.
  intros Hids Hm Hl Hd fired.
  pose proof (send_reminders_no_recipients C cfg L w Hids) as Hs.
  split; [exact Hs |]. split; [| split].
  - rewrite (check_bedtime_due C _ _ _ _ _ _ _ Hm Hl Hd), Hs. reflexivity.
  - intros cfg' w' Hb. eexists. split.
    + apply (check_bedtime_due C cfg' st current now w' mp L); trivial.
      rewrite (should_send_reminder_bedtime _ _ _ Hb). exact Hm.
    + reflexivity.
  - intros current2 now2 w2 mp2 L2 Hm2 Hl2 Hlt.
    apply (check_bedtime_not_due C cfg fired current2 now2 w2 mp2 L2);
      trivial.
    apply ping_due_false_iff. exists now. split; [reflexivity | exact Hlt].
Qed.

(** C8: for a level from 0 to 4 the [test] command calls [send_reminders]
    at that level whatever the globals hold, and hands them back as they
    were. *)
Theorem test_reminder_frame (C : Client) (cfg : config)
  (st : SchedulerState) (level : Z) (w : World C) :
  0 <= level <= 4 ->
  test_reminder C cfg st level w =
    (st, SentTestReminder level (length (user_ids cfg)),
     fst (send_reminders C cfg level w),
     snd (send_reminders C cfg level w)) /\
  test_command C true cfg st level w = Ok (test_reminder C cfg st level w) /\
  (forall st' : SchedulerState,
     snd (test_reminder C cfg st' level w) =
     snd (send_reminders C cfg level w)).
Proof.
  intros [H0 H4].
  assert (Hr : (0 <=? level) && (level <=? 4) = true).
  { apply andb_true_iff. split; apply Z.leb_le; assumption. }
  unfold test_command, test_reminder. rewrite Hr.
  destruct (send_reminders C cfg level w) as [w' tr]. simpl.
  repeat split.
Qed.

End SchedulerFacts.

(** ** Delivery *)

Module DeliveryFacts.
Import Policy Config Clock Discord Bot Delivery.

Section WithClient.
Variable C : Client.

Lemma dm_users_app (a b : list (event C)) :
  dm_users (a ++ b) = (dm_users a ++ dm_users b)%list.
Proof.
  induction a as [|[u text ok | ch text ok] a IH]; simpl;
    [reflexivity | rewrite IH; reflexivity | exact IH].
Qed.

(** The loop over two lists of ids is the loop over the second, resumed
    where the loop over the first ended. *)
Lemma dm_loop_app (message : string) (ids1 ids2 : list cfg_val) :
  forall (users : list (User C)) (w : World C) (tr : list (event C)),
    dm_loop C message (ids1 ++ ids2) users w tr =
    match dm_loop C message ids1 users w tr with
    | (users1, w1, tr1) => dm_loop C message ids2 users1 w1 tr1
    end.
Proof.
  induction ids1 as [|user_id ids1 IH]; intros users w tr; simpl.
  - reflexivity.
  - destruct (int_of user_id) as [n|e]; [|apply IH].
    destruct (fetch_user C n w) as [[user|] w1]; [|apply IH].
    destruct (user_send C user _ w1) as [ok w2]. apply IH.
Qed.

(** The loop only appends: one direct message per user it adds, none of
    them a broadcast. *)
Lemma dm_loop_appends (message : string) (ids : list cfg_val) :
  forall (users : list (User C)) (w : World C) (tr : list (event C))
         users' w' tr',
    dm_loop C message ids users w tr = (users', w', tr') ->
    exists added,
      tr' = (tr ++ added)%list /\
      users' = (users ++ dm_users added)%list /\
      existsb is_broadcast added = false.
Proof.
  induction ids as [|user_id ids IH]; intros users w tr users' w' tr' H;
    simpl in H.
  - injection H as <- <- <-. exists []. rewrite !app_nil_r. auto.
  - destruct (int_of user_id) as [n|e]; [|exact (IH _ _ _ _ _ _ H)].
    destruct (fetch_user C n w) as [[user|] w1]; [|exact (IH _ _ _ _ _ _ H)].
    destruct (user_send C user _ w1) as [ok w2].
    destruct (IH _ _ _ _ _ _ H) as (added & -> & -> & Hb).
    eexists (DM user _ ok :: added). simpl.
    rewrite <- !app_assoc. simpl. auto.
Qed.

(** The server ping goes to [destination], if there is one. *)
Lemma server_ping_destination (cfg : config) (message : string)
  (users : list (User C)) (w : World C) :
  server_ping C cfg message users w =
  match destination C cfg w with
  | Some channel =>
      match channel_send C channel (ping_text C message users) w with
      | (ok, w') => (w', [Broadcast channel (ping_text C message users) ok])
      end
  | None => (w, [])
  end.
Proof.
  unfold server_ping, destination, ping_text.
  destruct (server_id cfg) as [sv|]; [|reflexivity].
  destruct (channel_id cfg) as [cv|]; [|reflexivity].
  destruct (int_of sv) as [gid|e]; [|reflexivity].
  destruct (get_guild C gid w) as [guild|];
    destruct (int_of cv) as [cid|e]; try reflexivity.
Qed.

Lemma nonempty_true {A : Type} (l : list A) : nonempty l = true <-> l <> [].
Proof. destruct l; simpl; split; congruence. Qed.

(** [send_reminders] without its early return: with no recipient the loop
    adds no user and the guard of the server ping fails. *)
Lemma send_reminders_loop_then_ping (cfg : config) (level : Z) (w : World C) :
  send_reminders C cfg level w =
  match dm_loop C (get_message level) (user_ids cfg) [] w [] with
  | (users, w1, tr) =>
      if truthy (server_id cfg) && truthy (channel_id cfg) && nonempty users
      then match server_ping C cfg (get_message level) users w1 with
           | (w2, tr2) => (w2, (tr ++ tr2)%list)
           end
      else (w1, tr)
  end.
Proof.
  unfold send_reminders. destruct (user_ids cfg) as [|user_id ids].
  - simpl. rewrite andb_false_r. reflexivity.
  - reflexivity.
Qed.

(** The loop hands over exactly the attempts: it adds every fetched user
    to [users] and one direct message for it to the trace, with the
    answer [user_send] gave. *)
Lemma dm_loop_attempts (message : string) (ids : list cfg_val) :
  forall (users : list (User C)) (w : World C) (tr : list (event C)),
    dm_loop C message ids users w tr =
    ((users ++ map fst (fst (direct_attempts C message ids w)))%list,
     snd (direct_attempts C message ids w),
     (tr ++ map (attempt_event C message)
              (fst (direct_attempts C message ids w)))%list).
Proof.
  induction ids as [|user_id ids IH]; intros users w tr; simpl.
  - rewrite !app_nil_r. reflexivity.
  - destruct (int_of user_id) as [n|e]; [| apply IH].
    destruct (fetch_user C n w) as [[user|] w1]; [| apply IH].
    fold (dm_text C message user).
    destruct (user_send C user (dm_text C message user) w1) as [ok w2].
    rewrite IH.
    destruct (direct_attempts C message ids w2) as [later w3]. simpl.
    rewrite <- !app_assoc. reflexivity.
Qed.

Lemma dm_users_attempts (message : string) (l : list (User C * bool)) :
  dm_users (map (attempt_event C message) l) = map fst l.
Proof.
  induction l as [|[u ok] l IH]; simpl; [reflexivity |].
  rewrite IH. reflexivity.
Qed.

Lemma attempts_no_broadcast (message : string) (l : list (User C * bool)) :
  existsb is_broadcast (map (attempt_event C message) l) = false.
Proof.
  induction l as [|[u ok] l IH]; simpl; [reflexivity | exact IH].
Qed.

End WithClient.

(** C2, as the code has it.  [send_reminders] always returns.  Its loop
    goes through every configured recipient: an id that does not convert
    and a user [fetch_user] cannot fetch are passed over; a user that
    [fetch_user] fetches is sent a direct message and joins the users to
    mention whatever [user_send] answers, delivered or refused.  At most
    one server ping follows the direct messages; it is sent exactly when
    both destination ids are set and resolve to a cached channel and at
    least one recipient was fetched, and it mentions every fetched
    recipient, in order. *)
Theorem send_reminders_broadcast (C : Client) (cfg : config) (level : Z)
  (w : World C) :
  let message := get_message level in
  let attempts := fst (direct_attempts C message (user_ids cfg) w) in
  let w1 := snd (direct_attempts C message (user_ids cfg) w) in
  let users := map fst attempts in
  let dms := map (attempt_event C message) attempts in
  dm_loop C message (user_ids cfg) [] w [] = (users, w1, dms) /\
  existsb is_broadcast dms = false /\
  dm_users dms = users /\
  (exists bc w2,
     send_reminders C cfg level w = (w2, (dms ++ bc)%list) /\
     (bc = [] /\ w2 = w1 \/
      exists ch ok,
        bc = [Broadcast ch (ping_text C message users) ok] /\
        destination C cfg w1 = Some ch /\
        channel_send C ch (ping_text C message users) w1 = (ok, w2)) /\
     (bc <> [] <->
        truthy (server_id cfg) && truthy (channel_id cfg) = true /\
        attempts <> [] /\ destination C cfg w1 <> None)) /\
  (forall (before after : list cfg_val) (user_id : cfg_val)
          (users_b : list (User C)) (wb : World C) (tr_b : list (event C)),
     user_ids cfg = (before ++ user_id :: after)%list ->
     dm_loop C message before [] w [] = (users_b, wb, tr_b) ->
     (forall n user wf ok ws,
        int_of user_id = Ok n ->
        fetch_user C n wb = (Some user, wf) ->
        user_send C user (dm_text C message user) wf = (ok, ws) ->
        exists users_a tr_a,
          users = (users_b ++ user :: users_a)%list /\
          dms = (tr_b ++ DM user (dm_text C message user) ok :: tr_a)%list /\
          dm_loop C message after (users_b ++ [user])%list ws
            (tr_b ++ [DM user (dm_text C message user) ok])%list =
          (users, w1, dms)) /\
     (forall n wf,
        int_of user_id = Ok n ->
        fetch_user C n wb = (None, wf) ->
        dm_loop C message after users_b wf tr_b = (users, w1, dms)) /\
     (forall e,
        int_of user_id = Raise e ->
        dm_loop C message after users_b wb tr_b = (users, w1, dms))) /\
  (forall (ids1 ids2 : list cfg_val) (users0 : list (User C))
          (w0 : World C) (tr0 : list (event C)),
     dm_loop C message (ids1 ++ ids2) users0 w0 tr0 =
     match dm_loop C message ids1 users0 w0 tr0 with
     | (users1, w1', tr1) => dm_loop C message ids2 users1 w1' tr1
     end).
Proof.
  intros message attempts w1 users dms.
  assert (Hloop : dm_loop C message (user_ids cfg) [] w [] = (users, w1, dms)).
  { rewrite dm_loop_attempts. reflexivity. }
  split; [exact Hloop |].
  split; [apply attempts_no_broadcast |].
  split; [apply dm_users_attempts |].
  split; [| split; [| intros; apply dm_loop_app]].
  - assert (Hnil : forall P : Prop,
              ~ P -> (@nil (event C) <> [] <-> P)) by (intros P HP; tauto).
    assert (Hne : nonempty users = true <-> attempts <> []).
    { subst users. destruct attempts; simpl; split; congruence. }
    rewrite send_reminders_loop_then_ping. fold message. rewrite Hloop.
    destruct (truthy (server_id cfg) && truthy (channel_id cfg)) eqn:Hcfg;
      simpl.
    + destruct (nonempty users) eqn:Hu.
      * rewrite server_ping_destination.
        destruct (destination C cfg w1) as [ch|] eqn:Hdest.
        -- destruct (channel_send C ch (ping_text C message users) w1)
             as [ok w2] eqn:Hsend.
           exists [Broadcast ch (ping_text C message users) ok], w2.
           split; [reflexivity |]. split.
           ++ right. exists ch, ok. auto.
           ++ split; [intros _ | discriminate].
              split; [reflexivity |].
              split; [apply Hne; reflexivity | discriminate].
        -- exists [], w1. split; [reflexivity |].
           split; [left; auto |].
           apply Hnil. intros (_ & _ & H). congruence.
      * exists [], w1. rewrite app_nil_r. split; [reflexivity |].
        split; [left; auto |].
        apply Hnil. intros (_ & H & _). apply Hne in H. congruence.
    + exists [], w1. rewrite app_nil_r. split; [reflexivity |].
      split; [left; auto |].
      apply Hnil. intros (H & _). discriminate.
  - intros before after user_id users_b wb tr_b Hids Hbefore.
    assert (Hrest : dm_loop C message (user_id :: after) users_b wb tr_b =
                    (users, w1, dms)).
    { rewrite <- Hloop, Hids, dm_loop_app, Hbefore. reflexivity. }
    split; [| split].
    + intros n user wf ok ws Hn Hf Hs. simpl in Hrest.
      rewrite Hn, Hf in Hrest. fold (dm_text C message user) in Hrest.
      rewrite Hs in Hrest.
      pose proof Hrest as Hshape. rewrite dm_loop_attempts in Hshape.
      injection Hshape as Hu _ Hd.
      eexists _, _. split; [| split; [| exact Hrest]].
      * rewrite <- Hu, <- app_assoc. reflexivity.
      * rewrite <- Hd, <- app_assoc. reflexivity.
    + intros n wf Hn Hf. simpl in Hrest. rewrite Hn, Hf in Hrest.
      exact Hrest.
    + intros e He. simpl in Hrest. rewrite He in Hrest. exact Hrest.
Qed.

(** User 7 refuses the direct message and is pinged on the server. *)
Lemma send_reminders_broadcast_witness :
  exists (users_a : list (User Sim.dm_blocked))
         (tr_a : list (event Sim.dm_blocked)),
    map fst (fst (direct_attempts Sim.dm_blocked (get_message 1)
                    (user_ids Sim.cfg_only_7) 0%nat)) =
    ([] ++ 7 :: users_a)%list /\
    map (attempt_event Sim.dm_blocked (get_message 1))
      (fst (direct_attempts Sim.dm_blocked (get_message 1)
              (user_ids Sim.cfg_only_7) 0%nat)) =
    ([] ++ DM (7 : User Sim.dm_blocked)
             (dm_text Sim.dm_blocked (get_message 1) 7) false :: tr_a)%list.
Proof.
  destruct (send_reminders_broadcast Sim.dm_blocked Sim.cfg_only_7 1 0%nat)
    as (_ & _ & _ & _ & Hpos & _).
  destruct (Hpos [] [] (JInt 7) [] 0%nat [] eq_refl eq_refl)
    as (Hfetched & _ & _).
  destruct (Hfetched 7 (7 : User Sim.dm_blocked) 1%nat false 2%nat
              eq_refl eq_refl eq_refl)
    as (users_a & tr_a & Hu & Hd & _).
  exists users_a, tr_a. split; [exact Hu | exact Hd].
Defined.

(** C2 as stated fails: user 7 is fetched but refuses the direct message,
    and the server ping still goes out, mentioning 7. *)
Lemma broadcast_without_delivery :
  ~ broadcast_iff_delivered Sim.dm_blocked Sim.cfg_only_7 1 0%nat.
Proof.
  intros [[Hsent _] _].
  destruct (Hsent eq_refl) as [_ Hdelivered].
  apply Hdelivered. reflexivity.
Qed.

End DeliveryFacts.

(** ** Start-up *)

Module StartupFacts.
Import Policy Config Clock Discord Bot Delivery.

(** C6, as the code has it: a missing or empty token is found at start-up
    and the bot is never run; a missing bedtime makes [on_ready] raise
    before the task is started; a bedtime that is present is not examined
    at start-up, so the task starts whatever it holds, and when it is
    malformed each tick raises out of [should_send_reminder]. *)
Theorem startup_checks (cfg : config) :
  main None cfg = TokenNotFound /\
  main (Some "") cfg = TokenNotFound /\
  (bedtime cfg = None -> forall token, main token cfg <> LoopStarted) /\
  (forall (token b : string),
     token <> "" -> bedtime cfg = Some b ->
     main (Some token) cfg = LoopStarted) /\
  (forall (C : Client) (st : SchedulerState) (current now : datetime)
          (w : World C) (e : exn),
     should_send_reminder cfg current = Raise e ->
     check_bedtime C cfg st current now w = Raise e /\
     forall rest, task_loop C cfg ((current, now) :: rest) st w
                  = (st, w, [], Some e)).
Proof.
  split; [reflexivity |]. split; [reflexivity |].
  split; [| split].
  - intros Hb token. unfold main, start_bot, on_ready. rewrite Hb.
    destruct token as [[|c t]|]; discriminate.
  - intros token b Ht Hb. unfold main, start_bot, on_ready. rewrite Hb.
    destruct token as [|c t]; [congruence | reflexivity].
  - intros C st current now w e He.
    assert (Hc : check_bedtime C cfg st current now w = Raise e).
    { unfold check_bedtime. rewrite He. reflexivity. }
    split; [exact Hc |]. intros rest. simpl. rewrite Hc. reflexivity.
Qed.

(** With a token and the bedtime 25:61. *)
Lemma startup_checks_witness :
  main (Some "token") Sim.cfg_malformed = LoopStarted /\
  check_bedtime Sim.friendly Sim.cfg_malformed initial_state
    (at_time 0 22 0 0) (at_time 0 22 0 0) 0%nat = Raise ValueError.
Proof.
  destruct (startup_checks Sim.cfg_malformed) as (_ & _ & _ & Hstart & Htick).
  split.
  - apply (Hstart "token" "25:61"); [discriminate | reflexivity].
  - apply (Htick Sim.friendly). reflexivity.
Defined.

(** C6 as stated fails: the bedtime 25:61 raises in every tick, and the
    task is started all the same. *)
Lemma malformed_bedtime_starts_loop : ~ configuration_errors_fatal.
Proof.
  intros H.
  apply (H (Some "token") Sim.cfg_malformed); [| reflexivity].
  right. right. exists ValueError. intros t. reflexivity.
Qed.

End StartupFacts.

(** ** Runs of the task *)

Module Scenarios.
Import Policy Config Clock Discord Bot Sim.

(** C1 on the code: bedtime 00:20.  The tick at 23:59:30 fires at level 4;
    the tick at 00:00:00 of the next day is 20 minutes early and changes
    nothing; the tick at 00:05:00 is in the window at level 0 and is held
    back, being 330 seconds after the stored time. *)
Theorem window_reset_not_performed :
  task_loop friendly cfg_0020
    [tick_at 0 23 59 30; tick_at 1 0 0 0] initial_state 0%nat =
    ({| last_ping_time := Some (at_time 0 23 59 30); escalation_level := 4 |},
     2%nat, [Some 4; None], None) /\
  should_send_reminder cfg_0020 (at_time 1 0 0 0) =
    Ok (Some (-1200000000 # 60000000)) /\
  get_escalation_level (-1200000000 # 60000000) = None /\
  should_send_reminder cfg_0020 (at_time 1 0 5 0) =
    Ok (Some (-900000000 # 60000000)) /\
  get_escalation_level (-900000000 # 60000000) = Some 0 /\
  get_ping_interval 0 = 900 /\
  at_time 1 0 5 0 - at_time 0 23 59 30 = 330 * 1000000 /\
  task_loop friendly cfg_0020
    [tick_at 0 23 59 30; tick_at 1 0 0 0; tick_at 1 0 5 0]
    initial_state 0%nat =
    ({| last_ping_time := Some (at_time 0 23 59 30); escalation_level := 0 |},
     2%nat, [Some 4; None; None], None).
Proof. repeat split. Qed.

(** C3 on the code: bedtime 22:30.  After the tick at 23:00 fired at
    level 4, the tick at 08:00 of the next day, far outside the window,
    leaves the stored time and level 4 in place instead of the initial
    values. *)
Theorem out_of_window_tick_keeps_globals :
  let active :=
    {| last_ping_time := Some (at_time 0 23 0 0); escalation_level := 4 |} in
  task_loop friendly cfg_2230 [tick_at 0 23 0 0] initial_state 0%nat =
    (active, 5%nat, [Some 4], None) /\
  Policy.get_escalation_level (-870) = None /\
  check_bedtime friendly cfg_2230 active
    (at_time 1 8 0 0) (at_time 1 8 0 0) 5%nat =
    Ok {| state_after := active; sent := None;
          world_after := (5%nat : World friendly); events := [] |} /\
  active <> initial_state.
Proof. repeat split. discriminate. Qed.

End Scenarios.

(** ** The theorems at concrete inputs *)

Module Witnesses.
Import Policy Config Clock Discord Bot Sim SchedulerFacts.

(** A first tick at 22:31, one minute past a bedtime of 22:30. *)
Lemma check_bedtime_rate_limit_witness :
  exists r,
    check_bedtime friendly cfg_2230 initial_state
      (at_time 0 22 31 0) (at_time 0 22 31 0) 0%nat = Ok r /\
    sent r = Some 1.
Proof.
  destruct (check_bedtime_rate_limit friendly cfg_2230 initial_state
              (at_time 0 22 31 0) (at_time 0 22 31 0) 0%nat
              (60000000 # 60000000) 1 eq_refl eq_refl)
    as (r & Hr & _ & Hsent & _).
  exists r. split; [exact Hr |]. apply Hsent. left. reflexivity.
Defined.

(** Twenty minutes before a bedtime of 00:20, a time being stored. *)
Lemma should_send_reminder_never_None_witness :
  let st := {| last_ping_time := Some (at_time 0 23 59 30);
               escalation_level := 4 |} in
  check_bedtime friendly cfg_0020 st (at_time 1 0 0 0) (at_time 1 0 0 0)
    2%nat =
  Ok {| state_after := st; sent := None;
        world_after := (2%nat : World friendly); events := [] |}.
Proof.
  intros st.
  destruct (should_send_reminder_never_None friendly cfg_0020 st
              (at_time 1 0 0 0) (at_time 1 0 0 0) 2%nat)
    as (_ & _ & _ & Hout).
  apply (Hout (-1200000000 # 60000000)); reflexivity.
Defined.

(** No recipients, first tick at 22:31. *)
Lemma empty_recipients_still_rate_limits_witness :
  check_bedtime friendly cfg_no_recipients initial_state
    (at_time 0 22 31 0) (at_time 0 22 31 0) 0%nat =
  Ok {| state_after := {| last_ping_time := Some (at_time 0 22 31 0);
                          escalation_level := 1 |};
        sent := Some 1; world_after := (0%nat : World friendly);
        events := [] |}.
Proof.
  destruct (empty_recipients_still_rate_limits friendly cfg_no_recipients
              initial_state (at_time 0 22 31 0) (at_time 0 22 31 0) 0%nat
              (60000000 # 60000000) 1 eq_refl eq_refl eq_refl eq_refl)
    as (_ & Htick & _).
  exact Htick.
Defined.

(** The [test] command at level 2 while a time is stored. *)
Lemma test_reminder_frame_witness :
  let st := {| last_ping_time := Some (at_time 0 23 0 0);
               escalation_level := 4 |} in
  fst (fst (fst (test_reminder friendly cfg_2230 st 2 5%nat))) = st.
Proof.
  intros st.
  destruct (test_reminder_frame friendly cfg_2230 st 2 5%nat
              ltac:(lia)) as (Heq & _).
  rewrite Heq. reflexivity.
Defined.

End Witnesses.

(** ** More on the policy and on the offset *)

Module OffsetFacts.
Import Policy Config Clock Discord Bot Reading PolicyFacts.

(** X1: the five levels have five different messages, none of them the
    fallback, and every other level gets the fallback. *)
Theorem get_message_distinct :
  (forall a b : Z,
     0 <= a <= 4 -> 0 <= b <= 4 -> get_message a = get_message b -> a = b) /\
  (forall l : Z, 0 <= l <= 4 -> get_message l <> "Go to sleep!") /\
  (forall l : Z, ~ (0 <= l <= 4) -> get_message l = "Go to sleep!").
Proof.
  split; [| split].
  - intros a b Ha Hb.
    destruct (level_cases a Ha) as [-> | [-> | [-> | [-> | ->]]]];
      destruct (level_cases b Hb) as [-> | [-> | [-> | [-> | ->]]]];
      vm_compute; intros H; try reflexivity; discriminate H.
  - intros l Hl.
    destruct (level_cases l Hl) as [-> | [-> | [-> | [-> | ->]]]];
      vm_compute; intros H; discriminate H.
  - intros l Hl. unfold get_message, messages.
    rewrite !lookup_insert_ne by lia. rewrite lookup_empty. reflexivity.
Qed.

Lemma get_message_distinct_witness :
  get_message 2 <> get_message 3 /\ get_message 9 = "Go to sleep!".
Proof.
  destruct get_message_distinct as (Hinj & _ & Hdef). split.
  - intros H. apply Hinj in H; lia.
  - apply Hdef. lia.
Defined.

(** [should_send_reminder], with the reading of the bedtime set apart and
    the date arithmetic carried out. *)
Lemma should_send_reminder_parse (cfg : config) (current : datetime) :
  should_send_reminder cfg current =
  match bedtime cfg with
  | None => Raise KeyError
  | Some b =>
      match parse_bedtime b with
      | Raise e => Raise e
      | Ok bt =>
          Ok (Some (Qdiv (total_seconds
                            (time_of_day current - bedtime_usec bt))
                         (inject_Z 60)))
      end
  end.
Proof.
  unfold should_send_reminder, parse_bedtime.
  destruct (bedtime cfg) as [b|]; simpl; [|reflexivity].
  destruct (split_on ":" b) as [|hs [|ms [|x rest]]]; simpl;
    try reflexivity.
  destruct (py_int hs) as [h|e]; simpl; [|reflexivity].
  destruct (py_int ms) as [m|e]; simpl; [|reflexivity].
  destruct (py_time h m) as [bt|e]; simpl; [|reflexivity].
  do 4 f_equal.
  unfold combine, date_of, time_of_day, bedtime_usec.
  rewrite Z.mod_eq by (unfold usec_per_day; lia). lia.
Qed.

(** [int] raises nothing but [ValueError]. *)
Lemma py_int_raise (s : string) (e : exn) :
  py_int s = Raise e -> e = ValueError.
Proof.
  unfold py_int. intros H.
  repeat match type of H with
         | context [match ?x with _ => _ end] => destruct x
         end; congruence.
Qed.

(** The hour and minute checks of [py_time], as order facts. *)
Lemma in_day_iff (h m : Z) :
  (0 <=? h) && (h <=? 23) && (0 <=? m) && (m <=? 59) = true <->
  0 <= h <= 23 /\ 0 <= m <= 59.
Proof.
  rewrite !andb_true_iff, !Z.leb_le. lia.
Qed.

Lemma py_time_ok (h m : Z) (bt : time) :
  py_time h m = Ok bt ->
  hour bt = h /\ minute bt = m /\ 0 <= h <= 23 /\ 0 <= m <= 59.
Proof.
  unfold py_time.
  destruct (fits_c_int h && fits_c_int m); [| discriminate].
  destruct ((0 <=? h) && (h <=? 23) && (0 <=? m) && (m <=? 59)) eqn:E;
    [| discriminate].
  intros H. injection H as <-. apply in_day_iff in E. simpl. auto.
Qed.

(** A bedtime that was read lies within the day. *)
Lemma parse_bedtime_range (b : string) (bt : time) :
  parse_bedtime b = Ok bt ->
  0 <= hour bt <= 23 /\ 0 <= minute bt <= 59.
Proof.
  unfold parse_bedtime.
  destruct (split_on ":" b) as [|hs [|ms [|x rest]]]; try discriminate.
  destruct (py_int hs) as [h|e]; simpl; [|discriminate].
  destruct (py_int ms) as [m|e]; simpl; [|discriminate].
  intros H. apply py_time_ok in H. destruct H as (<- & <- & H). exact H.
Qed.

(** Comparing an offset with a whole number of minutes. *)
Lemma offset_lt (x n : Z) :
  (Qdiv (total_seconds x) (inject_Z 60) < inject_Z n)%Q <->
  x < n * 60000000.
Proof.
  unfold Qdiv, Qlt, total_seconds, inject_Z. simpl. lia.
Qed.

Lemma offset_ge (x n : Z) :
  (inject_Z n <= Qdiv (total_seconds x) (inject_Z 60))%Q <->
  n * 60000000 <= x.
Proof.
  unfold Qdiv, Qle, total_seconds, inject_Z. simpl. lia.
Qed.

Lemma level_None_iff (m : Q) :
  get_escalation_level m = None <-> (m < inject_Z (-15))%Q.
Proof.
  unfold get_escalation_level. change (inject_Z (-15)) with (-15)%Q.
  thresholds; split; intros H; try discriminate; try reflexivity;
    try assumption; exfalso; lra.
Qed.

Lemma level_4_iff (m : Q) :
  get_escalation_level m = Some 4 <-> (inject_Z 25 <= m)%Q.
Proof.
  unfold get_escalation_level. change (inject_Z 25) with 25%Q.
  thresholds; split; intros H; try discriminate; try reflexivity;
    try assumption; exfalso; lra.
Qed.

(** Every level is one of 0..4. *)
Lemma get_escalation_level_range (m : Q) (L : Z) :
  get_escalation_level m = Some L -> 0 <= L <= 4.
Proof.
  unfold get_escalation_level.
  repeat match goal with
         | |- context [Qltb ?a ?b] => destruct (Qltb a b)
         end; intros H; try discriminate; injection H as <-; lia.
Qed.

(** The number of parts [split_on] cuts a string into. *)
Lemma split_on_length (c : ascii) (s : string) :
  length (split_on c s) = S (count_char c s).
Proof.
  induction s as [|c' r IH]; simpl; [reflexivity |].
  destruct (Ascii.eqb c' c); simpl; [rewrite IH; reflexivity |].
  destruct (split_on c r) as [|p ps]; simpl in *; [discriminate | exact IH].
Qed.

(** X2: the offset is a matter of the time of day alone: [k] days later
    [should_send_reminder] answers (or raises) the same.  Past midnight
    the offset starts again from the new day's bedtime. *)
Theorem offset_same_every_day (cfg : config) (current : datetime) (k : Z) :
  should_send_reminder cfg (current + k * usec_per_day) =
  should_send_reminder cfg current.
Proof.
  rewrite !should_send_reminder_parse.
  destruct (bedtime cfg) as [b|]; [|reflexivity].
  destruct (parse_bedtime b) as [bt|e]; [|reflexivity].
  unfold time_of_day. rewrite Z.mod_add by (unfold usec_per_day; lia).
  reflexivity.
Qed.

(** X3: with a bedtime that reads as [bt], the offset lies strictly
    between -1440 and 1440 minutes; there is no level exactly when the
    time of day is more than 15 minutes before the bedtime, and the level
    is 4 exactly from 25 minutes after the bedtime until midnight. *)
Theorem level_by_time_of_day (cfg : config) (b : string) (bt : time)
  (current : datetime) :
  bedtime cfg = Some b ->
  parse_bedtime b = Ok bt ->
  exists q,
    should_send_reminder cfg current = Ok (Some q) /\
    (inject_Z (-1440) < q)%Q /\ (q < inject_Z 1440)%Q /\
    (get_escalation_level q = None <->
       time_of_day current < bedtime_usec bt - 15 * 60000000) /\
    (get_escalation_level q = Some 4 <->
       bedtime_usec bt + 25 * 60000000 <= time_of_day current).
Proof.
  intros Hb Hp. eexists. split.
  { rewrite should_send_reminder_parse, Hb, Hp. reflexivity. }
  pose proof (parse_bedtime_range _ _ Hp) as [Hh Hm].
  assert (Ht : 0 <= time_of_day current < usec_per_day).
  { apply Z.mod_pos_bound. unfold usec_per_day. lia. }
  unfold usec_per_day in Ht. unfold bedtime_usec.
  split; [| split; [| split]].
  - unfold Qdiv, Qlt, total_seconds, inject_Z. simpl. lia.
  - apply offset_lt. lia.
  - rewrite level_None_iff, offset_lt. lia.
  - rewrite level_4_iff, offset_ge. lia.
Qed.

(** X4: with a bedtime in the first quarter of an hour of the day, no
    time of day is more than 15 minutes before it: every tick has a
    level, so the bot is never outside its reminder window. *)
Theorem early_bedtime_always_in_window (cfg : config) (b : string)
  (bt : time) (current : datetime) :
  bedtime cfg = Some b ->
  parse_bedtime b = Ok bt ->
  hour bt = 0 -> minute bt <= 15 ->
  exists q L,
    should_send_reminder cfg current = Ok (Some q) /\
    get_escalation_level q = Some L.
Proof.
  intros Hb Hp Hh Hm.
  pose proof (parse_bedtime_range _ _ Hp) as [_ Hm0].
  assert (Ht : 0 <= time_of_day current < usec_per_day).
  { apply Z.mod_pos_bound. unfold usec_per_day. lia. }
  eexists.
  destruct (get_escalation_level
              (Qdiv (total_seconds (time_of_day current - bedtime_usec bt))
                    (inject_Z 60))) as [L|] eqn:Hl.
  - exists L. split; [| exact Hl].
    rewrite should_send_reminder_parse, Hb, Hp. reflexivity.
  - exfalso. apply (proj1 (level_None_iff _)) in Hl.
    apply (proj1 (offset_lt _ _)) in Hl.
    unfold bedtime_usec in Hl. rewrite Hh in Hl. lia.
Qed.

(** X5: what makes [should_send_reminder] raise, for a bedtime written
    in ASCII.  A missing bedtime is a [KeyError].  A bedtime that does not
    hold exactly one colon, or whose hour or minute is not an integer, is
    a [ValueError].  When both are integers, one that does not fit a C
    [int] is an [OverflowError]; otherwise an hour outside 0..23 or a
    minute outside 0..59 is a [ValueError].  Nothing else is raised: a
    [KeyError] means the key is missing, an [OverflowError] that both
    parts are integers and one does not fit. *)
Theorem should_send_reminder_errors (cfg : config) (current : datetime) :
  (bedtime cfg = None -> should_send_reminder cfg current = Raise KeyError) /\
  (forall b, bedtime cfg = Some b -> count_char ":" b <> 1%nat ->
     should_send_reminder cfg current = Raise ValueError) /\
  (forall b hs ms,
     bedtime cfg = Some b -> ascii_only b = true ->
     split_on ":" b = [hs; ms] ->
     (forall h, py_int hs <> Ok h) \/ (forall m, py_int ms <> Ok m) ->
     should_send_reminder cfg current = Raise ValueError) /\
  (forall b hs ms h m,
     bedtime cfg = Some b -> split_on ":" b = [hs; ms] ->
     py_int hs = Ok h -> py_int ms = Ok m ->
     (fits_c_int h && fits_c_int m = false ->
      should_send_reminder cfg current = Raise OverflowError) /\
     (fits_c_int h && fits_c_int m = true ->
      ~ (0 <= h <= 23 /\ 0 <= m <= 59) ->
      should_send_reminder cfg current = Raise ValueError)) /\
  (forall e,
     (forall b, bedtime cfg = Some b -> ascii_only b = true) ->
     should_send_reminder cfg current = Raise e ->
     (e = KeyError /\ bedtime cfg = None) \/
     (e = ValueError /\ bedtime cfg <> None) \/
     (e = OverflowError /\
      exists b hs ms h m,
        bedtime cfg = Some b /\ split_on ":" b = [hs; ms] /\
        py_int hs = Ok h /\ py_int ms = Ok m /\
        fits_c_int h && fits_c_int m = false)).
Proof.
  assert (Hint : forall s, (forall n, py_int s <> Ok n) ->
                           py_int s = Raise ValueError).
  { intros s Hs. destruct (py_int s) as [n|e] eqn:E.
    - exfalso. exact (Hs n eq_refl).
    - rewrite (py_int_raise _ _ E). reflexivity. }
  split; [| split; [| split; [| split]]].
  - intros Hb. unfold should_send_reminder. rewrite Hb. reflexivity.
  - intros b Hb Hc. unfold should_send_reminder. rewrite Hb. simpl.
    pose proof (split_on_length ":" b) as Hlen.
    destruct (split_on ":" b) as [|hs [|ms [|x rest]]]; simpl in *;
      try reflexivity.
    exfalso. apply Hc. congruence.
  - intros b hs ms Hb _ Hs Hbad.
    unfold should_send_reminder. rewrite Hb. simpl. rewrite Hs. simpl.
    destruct Hbad as [Hbad | Hbad].
    + rewrite (Hint _ Hbad). reflexivity.
    + destruct (py_int hs) as [h|e] eqn:Hh; simpl.
      * rewrite (Hint _ Hbad). reflexivity.
      * rewrite (py_int_raise _ _ Hh). reflexivity.
  - intros b hs ms h m Hb Hs Hh Hm.
    unfold should_send_reminder. rewrite Hb. simpl. rewrite Hs. simpl.
    rewrite Hh. simpl. rewrite Hm. simpl. unfold py_time. split.
    + intros ->. reflexivity.
    + intros -> Hr.
      destruct ((0 <=? h) && (h <=? 23) && (0 <=? m) && (m <=? 59)) eqn:E;
        [| reflexivity].
      exfalso. apply Hr. apply in_day_iff. exact E.
  - intros e _. unfold should_send_reminder.
    destruct (bedtime cfg) as [b|]; simpl.
    + intros H.
      destruct (split_on ":" b) as [|hs [|ms [|x rest]]] eqn:Hs;
        simpl in H; try (right; left; split; congruence).
      destruct (py_int hs) as [h|eh] eqn:Hh; simpl in H.
      * destruct (py_int ms) as [m|em] eqn:Hm; simpl in H.
        -- unfold py_time in H.
           destruct (fits_c_int h && fits_c_int m) eqn:Hfit.
           ++ destruct ((0 <=? h) && (h <=? 23) && (0 <=? m) && (m <=? 59));
                simpl in H; [discriminate |].
              right. left. split; congruence.
           ++ simpl in H. right. right. split; [congruence |].
              exists b, hs, ms, h, m. auto.
        -- right. left. split; [| discriminate].
           rewrite <- (py_int_raise _ _ Hm). congruence.
      * right. left. split; [| discriminate].
        rewrite <- (py_int_raise _ _ Hh). congruence.
    + intros H. left. split; [congruence | reflexivity].
Qed.

End OffsetFacts.

(** ** More on the scheduler *)

Module RunFacts.
Import Policy Config Clock Discord Bot Reading PolicyFacts SchedulerFacts.
Import OffsetFacts.

(** No level pings more often than once a minute. *)
Lemma get_ping_interval_min (L : Z) : 60 <= get_ping_interval L.
Proof.
  destruct (Z_le_dec 0 L) as [H0|H0]; [destruct (Z_le_dec L 4) as [H4|H4] |].
  - destruct (level_cases L (conj H0 H4)) as [-> | [-> | [-> | [-> | ->]]]];
      vm_compute; congruence.
  - rewrite get_ping_interval_default by lia. lia.
  - rewrite get_ping_interval_default by lia. lia.
Qed.

Section WithClient.
Variable C : Client.

(** The three ways a tick can return. *)
Lemma check_bedtime_cases (cfg : config) (st : SchedulerState)
  (current now : datetime) (w : World C) (r : tick_result C) :
  check_bedtime C cfg st current now w = Ok r ->
  exists mp,
    should_send_reminder cfg current = Ok (Some mp) /\
    ((get_escalation_level mp = None /\
      r = {| state_after := st; sent := None;
             world_after := w; events := [] |}) \/
     (exists L,
        get_escalation_level mp = Some L /\
        ping_due (last_ping_time st) now (get_ping_interval L) = true /\
        r = {| state_after := {| last_ping_time := Some now;
                                 escalation_level := L |};
               sent := Some L;
               world_after := fst (send_reminders C cfg L w);
               events := snd (send_reminders C cfg L w) |}) \/
     (exists L,
        get_escalation_level mp = Some L /\
        ping_due (last_ping_time st) now (get_ping_interval L) = false /\
        r = {| state_after := {| last_ping_time := last_ping_time st;
                                 escalation_level := L |};
               sent := None; world_after := w; events := [] |})).
Proof.
  intros Hr.
  destruct (should_send_reminder_cases cfg current) as [(q & Hq) | (e & He)].
  - exists q. split; [exact Hq |].
    destruct (get_escalation_level q) as [L|] eqn:Hl.
    + destruct (ping_due (last_ping_time st) now (get_ping_interval L))
        eqn:Hd.
      * rewrite (check_bedtime_due C _ _ _ _ _ _ _ Hq Hl Hd) in Hr.
        injection Hr as <-. right. left. exists L. auto.
      * rewrite (check_bedtime_not_due C _ _ _ _ _ _ _ Hq Hl Hd) in Hr.
        injection Hr as <-. right. right. exists L. auto.
    + rewrite (check_bedtime_out_of_window C _ _ _ _ _ _ Hq Hl) in Hr.
      injection Hr as <-. left. auto.
  - unfold check_bedtime in Hr. rewrite He in Hr. discriminate.
Qed.

(** A tick raises exactly what [should_send_reminder] raises. *)
Lemma check_bedtime_raise (cfg : config) (st : SchedulerState)
  (current now : datetime) (w : World C) (e : exn) :
  check_bedtime C cfg st current now w = Raise e <->
  should_send_reminder cfg current = Raise e.
Proof.
  split.
  - intros Hr.
    destruct (should_send_reminder_cases cfg current) as [(q & Hq) | (x & He)].
    + exfalso.
      destruct (get_escalation_level q) as [L|] eqn:Hl.
      * destruct (ping_due (last_ping_time st) now (get_ping_interval L))
          eqn:Hd.
        -- rewrite (check_bedtime_due C _ _ _ _ _ _ _ Hq Hl Hd) in Hr.
           discriminate.
        -- rewrite (check_bedtime_not_due C _ _ _ _ _ _ _ Hq Hl Hd) in Hr.
           discriminate.
      * rewrite (check_bedtime_out_of_window C _ _ _ _ _ _ Hq Hl) in Hr.
        discriminate.
    + unfold check_bedtime in Hr. rewrite He in Hr. simpl in Hr.
      congruence.
  - intros He. unfold check_bedtime. rewrite He. reflexivity.
Qed.

End WithClient.

(** X6: whatever the level, a tick less than 60 seconds after the stored
    time sends nothing, hands nothing to the client and keeps the stored
    time. *)
Theorem never_twice_within_a_minute (C : Client) (cfg : config)
  (st : SchedulerState) (current now : datetime) (w : World C)
  (r : tick_result C) (t : datetime) :
  check_bedtime C cfg st current now w = Ok r ->
  last_ping_time st = Some t ->
  now - t < 60 * 1000000 ->
  sent r = None /\ events r = [] /\ world_after r = w /\
  last_ping_time (state_after r) = Some t.
Proof.
  intros Hr Ht Hlt.
  destruct (check_bedtime_cases C _ _ _ _ _ _ Hr)
    as (mp & Hm & [(Hl & ->) | [(L & Hl & Hd & ->) | (L & Hl & Hd & ->)]]);
    simpl; auto.
  exfalso. apply ping_due_iff in Hd.
  destruct Hd as [Hd | (t' & Ht' & Hle)]; [congruence |].
  rewrite Ht in Ht'. injection Ht' as <-.
  pose proof (get_ping_interval_min L). lia.
Qed.

(** X7: the stored level is never read: two ticks that differ only in
    [escalation_level] raise alike or send, deliver and store the same
    time alike. *)
Theorem stored_level_never_read (C : Client) (cfg : config)
  (st st' : SchedulerState) (current now : datetime) (w : World C) :
  last_ping_time st = last_ping_time st' ->
  match check_bedtime C cfg st current now w,
        check_bedtime C cfg st' current now w with
  | Ok r, Ok r' =>
      sent r = sent r' /\ events r = events r' /\
      world_after r = world_after r' /\
      last_ping_time (state_after r) = last_ping_time (state_after r')
  | Raise e, Raise e' => e = e'
  | _, _ => False
  end.
Proof.
  intros Hlast.
  destruct (should_send_reminder_cases cfg current) as [(q & Hq) | (e & He)].
  - destruct (get_escalation_level q) as [L|] eqn:Hl.
    + destruct (ping_due (last_ping_time st) now (get_ping_interval L))
        eqn:Hd.
      * rewrite (check_bedtime_due C _ _ _ _ _ _ _ Hq Hl Hd).
        rewrite Hlast in Hd.
        rewrite (check_bedtime_due C _ _ _ _ _ _ _ Hq Hl Hd).
        simpl. auto.
      * rewrite (check_bedtime_not_due C _ _ _ _ _ _ _ Hq Hl Hd).
        rewrite Hlast in Hd.
        rewrite (check_bedtime_not_due C _ _ _ _ _ _ _ Hq Hl Hd).
        simpl. auto.
    + rewrite !(check_bedtime_out_of_window C _ _ _ _ _ _ Hq Hl).
      simpl. auto.
  - rewrite !(proj2 (check_bedtime_raise C _ _ _ _ _ _) He). reflexivity.
Qed.

(** X8: a tick that does not call [send_reminders] hands nothing to the
    client and keeps the stored time; one that does stores [now] and a
    level from 0 to 4, the one it sent at. *)
Theorem tick_effects_follow_sent (C : Client) (cfg : config)
  (st : SchedulerState) (current now : datetime) (w : World C)
  (r : tick_result C) :
  check_bedtime C cfg st current now w = Ok r ->
  (sent r = None ->
     events r = [] /\ world_after r = w /\
     last_ping_time (state_after r) = last_ping_time st) /\
  (forall L, sent r = Some L ->
     0 <= L <= 4 /\
     state_after r = {| last_ping_time := Some now; escalation_level := L |} /\
     (world_after r, events r) = send_reminders C cfg L w).
Proof.
  intros Hr.
  destruct (check_bedtime_cases C _ _ _ _ _ _ Hr)
    as (mp & Hm & [(Hl & ->) | [(L & Hl & Hd & ->) | (L & Hl & Hd & ->)]]);
    simpl; (split; [intros H; try discriminate; auto |]);
    intros L' H; try discriminate.
  injection H as <-. split; [exact (get_escalation_level_range _ _ Hl) |].
  split; [reflexivity |]. destruct (send_reminders C cfg L w); reflexivity.
Qed.

(** X9: a run of the task ends in an exception on its first tick or not
    at all: when it raises, no tick completed, globals and world are
    untouched and [should_send_reminder] raises the same at every time;
    when it does not, every reading got its tick. *)
Theorem task_loop_raises_first_or_never (C : Client) (cfg : config)
  (readings : list (datetime * datetime)) :
  forall (st : SchedulerState) (w : World C) st' w' log e,
    task_loop C cfg readings st w = (st', w', log, e) ->
    (e = None -> length log = length readings) /\
    (forall x, e = Some x ->
       log = [] /\ st' = st /\ w' = w /\ readings <> [] /\
       forall t, should_send_reminder cfg t = Raise x).
Proof.
  induction readings as [|[current now] rest IH];
    intros st w st' w' log e H; simpl in H.
  - injection H as <- <- <- <-. split; [reflexivity | discriminate].
  - destruct (check_bedtime C cfg st current now w) as [r|x] eqn:Hr.
    + destruct (task_loop C cfg rest (state_after r) (world_after r))
        as [[[st2 w2] log2] e2] eqn:Hrest.
      injection H as <- <- <- <-.
      destruct (IH _ _ _ _ _ _ Hrest) as [Hnone Hsome]. split.
      * intros He. simpl. rewrite (Hnone He). reflexivity.
      * intros x He. exfalso.
        destruct (Hsome x He) as (_ & _ & _ & _ & Hall).
        destruct (check_bedtime_cases C _ _ _ _ _ _ Hr) as (mp & Hm & _).
        rewrite Hall in Hm. discriminate.
    + injection H as <- <- <- <-. split; [discriminate |].
      intros x' Hx. injection Hx as <-.
      repeat split; try discriminate.
      intros t. apply check_bedtime_raise in Hr.
      exact (should_send_reminder_raise_any_time _ _ _ _ Hr).
Qed.

(** X10: a run of the task keeps the stored level within 0..4, never
    clears a stored time, and ends with the time it started with or with
    the [now] reading of one of its ticks. *)
Theorem task_loop_state_invariant (C : Client) (cfg : config)
  (readings : list (datetime * datetime)) :
  forall (st : SchedulerState) (w : World C) st' w' log e,
    0 <= escalation_level st <= 4 ->
    task_loop C cfg readings st w = (st', w', log, e) ->
    0 <= escalation_level st' <= 4 /\
    (last_ping_time st <> None -> last_ping_time st' <> None) /\
    (last_ping_time st' = last_ping_time st \/
     exists current now,
       In (current, now) readings /\ last_ping_time st' = Some now).
Proof.
  induction readings as [|[current now] rest IH];
    intros st w st' w' log e Hlev H; simpl in H.
  - injection H as <- <- <- <-. auto.
  - destruct (check_bedtime C cfg st current now w) as [r|x] eqn:Hr.
    + destruct (task_loop C cfg rest (state_after r) (world_after r))
        as [[[st2 w2] log2] e2] eqn:Hrest.
      injection H as <- <- <- <-.
      assert (Hr' : 0 <= escalation_level (state_after r) <= 4 /\
                    (last_ping_time st <> None ->
                     last_ping_time (state_after r) <> None) /\
                    (last_ping_time (state_after r) = last_ping_time st \/
                     last_ping_time (state_after r) = Some now)).
      { destruct (check_bedtime_cases C _ _ _ _ _ _ Hr)
          as (mp & Hm &
              [(Hl & ->) | [(L & Hl & Hd & ->) | (L & Hl & Hd & ->)]]);
          simpl; repeat split; auto;
          try (apply (get_escalation_level_range _ _ Hl));
          try discriminate; try tauto. }
      destruct Hr' as (Hlev' & Hkeep & Hfrom).
      destruct (IH _ _ _ _ _ _ Hlev' Hrest) as (Hlev2 & Hkeep2 & Hfrom2).
      split; [exact Hlev2 |]. split; [auto |].
      destruct Hfrom2 as [Heq | (c & n & Hin & Hn)].
      * rewrite Heq. destruct Hfrom as [Hsame | Hnow]; [left; exact Hsame |].
        right. exists current, now. split; [left; reflexivity | exact Hnow].
      * right. exists c, n. split; [right; exact Hin | exact Hn].
    + injection H as <- <- <- <-. auto.
Qed.

(** X11: in a run of the task the ticks that sent are at least 60 seconds
    apart by their own [now] readings, the first of them at least 60
    seconds after the time stored at the start, if there was one. *)
Theorem task_loop_spacing (C : Client) (cfg : config)
  (readings : list (datetime * datetime)) :
  forall (st : SchedulerState) (w : World C) st' w' log e,
    task_loop C cfg readings st w = (st', w', log, e) ->
    spaced 60000000 (last_ping_time st) (fired_nows readings log).
Proof.
  induction readings as [|[current now] rest IH];
    intros st w st' w' log e H; simpl in H.
  - injection H as <- <- <- <-. exact I.
  - destruct (check_bedtime C cfg st current now w) as [r|x] eqn:Hr.
    + destruct (task_loop C cfg rest (state_after r) (world_after r))
        as [[[st2 w2] log2] e2] eqn:Hrest.
      injection H as <- <- <- <-.
      pose proof (IH _ _ _ _ _ _ Hrest) as Hsp.
      destruct (check_bedtime_cases C _ _ _ _ _ _ Hr)
        as (mp & Hm &
            [(Hl & ->) | [(L & Hl & Hd & ->) | (L & Hl & Hd & ->)]]);
        simpl in *; try exact Hsp.
      split; [| exact Hsp].
      apply ping_due_iff in Hd.
      destruct Hd as [-> | (t & -> & Hle)]; [exact I |].
      pose proof (get_ping_interval_min L). lia.
    + injection H as <- <- <- <-. exact I.
Qed.

End RunFacts.

(** ** The commands, delivery and start-up *)

Module CommandFacts.
Import Policy Config Clock Discord Bot Delivery Commands Reading.
Import PolicyFacts SchedulerFacts OffsetFacts RunFacts DeliveryFacts.

(** Every level has a name. *)
Lemma level_names_total (L : Z) :
  0 <= L <= 4 -> exists name, py_index level_names L = Some name.
Proof.
  intros H.
  destruct (level_cases L H) as [-> | [-> | [-> | [-> | ->]]]];
    eexists; reflexivity.
Qed.

(** X12: [status] never fails on its list of level names; it raises
    exactly what a tick at the same reading raises; it reports "not in
    reminder window" exactly when that tick finds no level; and otherwise
    it names the level the tick stores in [escalation_level]. *)
Theorem status_agrees_with_tick (C : Client) (cfg : config)
  (st : SchedulerState) (current now : datetime) (w : World C) :
  status cfg current <> StatusIndexError /\
  (forall e, status cfg current = StatusRaised e <->
             check_bedtime C cfg st current now w = Raise e) /\
  (status cfg current = StatusReply not_in_window <->
   exists mp, should_send_reminder cfg current = Ok (Some mp) /\
              get_escalation_level mp = None) /\
  (forall r mp L,
     check_bedtime C cfg st current now w = Ok r ->
     should_send_reminder cfg current = Ok (Some mp) ->
     get_escalation_level mp = Some L ->
     escalation_level (state_after r) = L /\
     exists name,
       py_index level_names L = Some name /\
       status cfg current =
         StatusReply (status_text name L (int_trunc mp))).
Proof.
  unfold status.
  destruct (should_send_reminder_cases cfg current) as [(q & Hq) | (x & He)].
  - rewrite Hq.
    destruct (get_escalation_level q) as [L|] eqn:Hl.
    + destruct (level_names_total L (get_escalation_level_range _ _ Hl))
        as (name & Hname).
      rewrite Hname. split; [discriminate |]. split; [| split].
      * intros e. rewrite check_bedtime_raise, Hq.
        split; discriminate.
      * split; [discriminate |].
        intros (mp & Hmp & Hnone). congruence.
      * intros r mp L' Hr Hmp Hl'.
        injection Hmp as <-. rewrite Hl in Hl'. injection Hl' as <-.
        split; [| exists name; auto].
        destruct (check_bedtime_cases C _ _ _ _ _ _ Hr)
          as (mp & Hm &
              [(Hn & ->) | [(L' & Hl' & Hd & ->) | (L' & Hl' & Hd & ->)]]);
          rewrite Hq in Hm; injection Hm as <-; simpl; congruence.
    + split; [discriminate |]. split; [| split].
      * intros e. rewrite check_bedtime_raise, Hq. split; discriminate.
      * split; [intros _; exists q; auto | reflexivity].
      * intros r mp L Hr Hmp Hl'. congruence.
  - rewrite He. split; [discriminate |]. split; [| split].
    + intros e. rewrite check_bedtime_raise, He.
      split; intros H; congruence.
    + split; [discriminate |]. intros (mp & Hmp & _). congruence.
    + intros r mp L Hr Hmp. congruence.
Qed.

(** X13: [test], called by someone who is not the owner, raises before
    its body runs; called with a level outside 0..4 it answers with the
    usage line, hands nothing to the client and leaves world and globals
    alone. *)
Theorem test_command_rejections (C : Client) (cfg : config)
  (st : SchedulerState) (level : Z) (w : World C) :
  test_command C false cfg st level w = Raise NotOwner /\
  (~ (0 <= level <= 4) ->
   test_command C true cfg st level w =
     Ok (st, LevelMustBeBetween0And4, w, [])).
Proof.
  split; [reflexivity |].
  intros H. unfold test_command, test_reminder.
  destruct ((0 <=? level) && (level <=? 4)) eqn:E; [| reflexivity].
  exfalso. apply H. apply andb_true_iff in E. destruct E as [E1 E2].
  apply Z.leb_le in E1, E2. lia.
Qed.

Section WithClient.
Variable C : Client.

(** What the loop adds: at most one direct message per id, each made of
    the mention and the message. *)
Lemma dm_loop_added (message : string) (ids : list cfg_val) :
  forall (users : list (User C)) (w : World C) (tr : list (event C))
         users' w' tr',
    dm_loop C message ids users w tr = (users', w', tr') ->
    exists added,
      tr' = (tr ++ added)%list /\
      (length added <= length ids)%nat /\
      Forall (dm_of C message) added.
Proof.
  induction ids as [|user_id ids IH]; intros users w tr users' w' tr' H;
    simpl in H.
  - injection H as <- <- <-. exists []. rewrite app_nil_r. auto.
  - assert (Hskip : forall users0 w0,
              dm_loop C message ids users0 w0 tr = (users', w', tr') ->
              exists added, tr' = (tr ++ added)%list /\
                (length added <= S (length ids))%nat /\
                Forall (dm_of C message) added).
    { intros users0 w0 H0.
      destruct (IH _ _ _ _ _ _ H0) as (added & Htr & Hlen & Hall).
      exists added. auto. }
    destruct (int_of user_id) as [n|e]; [| exact (Hskip _ _ H)].
    destruct (fetch_user C n w) as [[user|] w1]; [| exact (Hskip _ _ H)].
    destruct (user_send C user _ w1) as [ok w2].
    destruct (IH _ _ _ _ _ _ H) as (added & -> & Hlen & Hall).
    eexists (DM user _ ok :: added). rewrite <- app_assoc. simpl.
    split; [reflexivity |]. split; [lia |].
    constructor; [reflexivity | exact Hall].
Qed.

Lemma dm_users_length (tr : list (event C)) :
  (length (dm_users tr) <= length tr)%nat.
Proof.
  induction tr as [|[u text ok | ch text ok] tr IH]; simpl; lia.
Qed.

(** Ids that [int] rejects are passed over without a call to the client. *)
Lemma dm_loop_unreadable (message : string) (ids : list cfg_val) :
  forall (users : list (User C)) (w : World C) (tr : list (event C)),
    (forall v, In v ids -> exists e, int_of v = Raise e) ->
    dm_loop C message ids users w tr = (users, w, tr).
Proof.
  induction ids as [|user_id ids IH]; intros users w tr H; simpl.
  - reflexivity.
  - destruct (H user_id (or_introl eq_refl)) as (e & ->).
    apply IH. intros v Hv. apply H. right. exact Hv.
Qed.

End WithClient.

(** X15: one call of [send_reminders] hands over at most one direct
    message per configured recipient and at most one thing more; every
    direct message is the recipient's mention, a space and the message of
    the level. *)
Theorem send_reminders_shape (C : Client) (cfg : config) (level : Z)
  (w : World C) :
  let tr := snd (send_reminders C cfg level w) in
  (length (dm_users tr) <= length (user_ids cfg))%nat /\
  (length tr <= S (length (user_ids cfg)))%nat /\
  (forall u text ok,
     In (DM u text ok) tr ->
     text = String.append (mention C u)
              (String.append " " (get_message level))).
Proof.
  intros tr. subst tr. rewrite send_reminders_loop_then_ping.
  destruct (dm_loop C (get_message level) (user_ids cfg) [] w [])
    as [[users w1] dms] eqn:Hloop.
  destruct (dm_loop_added C _ _ _ _ _ _ _ _ Hloop)
    as (added & Hdms & Hlen & Hall).
  simpl in Hdms. subst dms.
  pose proof (dm_users_length C added) as Hul.
  assert (Hdm : forall u text ok,
            In (DM u text ok) added ->
            text = String.append (mention C u)
                     (String.append " " (get_message level))).
  { intros u text ok Hin. rewrite List.Forall_forall in Hall.
    exact (Hall _ Hin). }
  destruct (truthy (server_id cfg) && truthy (channel_id cfg)
            && nonempty users).
  - rewrite server_ping_destination.
    destruct (destination C cfg w1) as [ch|].
    + destruct (channel_send C ch _ w1) as [ok w2]. simpl.
      rewrite dm_users_app, !length_app. simpl.
      split; [lia |]. split; [lia |].
      intros u text ok' Hin. apply in_app_or in Hin.
      destruct Hin as [Hin | [Hin | []]]; [eauto | discriminate].
    + simpl. rewrite app_nil_r. split; [lia |]. split; [lia | exact Hdm].
  - simpl. split; [lia |]. split; [lia | exact Hdm].
Qed.

(** X16: when no configured id reads as an integer, [send_reminders]
    makes no call to the client at all: the world is as before and
    nothing is handed over, although recipients are configured. *)
Theorem send_reminders_unreadable_ids (C : Client) (cfg : config)
  (level : Z) (w : World C) :
  (forall v, In v (user_ids cfg) -> exists e, int_of v = Raise e) ->
  send_reminders C cfg level w = (w, []).
Proof.
  intros H. rewrite send_reminders_loop_then_ping.
  rewrite (dm_loop_unreadable C _ _ _ _ _ H). simpl.
  rewrite andb_false_r. reflexivity.
Qed.

(** Dropping the fraction of [a/d] leaves a whole number between 0 and
    [a/d]. *)
Lemma int_trunc_bounds (a : Z) (d : positive) :
  let n := int_trunc (a # d) in
  (0 <= a -> n * Z.pos d <= a < (n + 1) * Z.pos d) /\
  (a <= 0 -> (n - 1) * Z.pos d < a <= n * Z.pos d).
Proof.
  unfold int_trunc. simpl.
  pose proof (Z.quot_rem' a (Z.pos d)) as Hqr.
  split; intros Ha.
  - pose proof (Z.rem_bound_pos a (Z.pos d) Ha ltac:(lia)). lia.
  - pose proof (Z.rem_bound_pos (- a) (Z.pos d) ltac:(lia) ltac:(lia)) as Hb.
    rewrite Z.rem_opp_l' in Hb. lia.
Qed.

(** X17: the whole minutes [status] prints beside a level fit that level:
    -15..0 at level 0, 0..4 at level 1, 5..14 at level 2, 15..24 at
    level 3 and 25 or more at level 4.  The last minute before the bedtime
    prints as 0, like the first minute after it. *)
Theorem status_minutes_fit_level (mp : Q) (L : Z) :
  get_escalation_level mp = Some L ->
  let n := int_trunc mp in
  (L = 0 -> -15 <= n <= 0) /\
  (L = 1 -> 0 <= n <= 4) /\
  (L = 2 -> 5 <= n <= 14) /\
  (L = 3 -> 15 <= n <= 24) /\
  (L = 4 -> 25 <= n).
Proof.
  destruct mp as [a d]. intros H n.
  pose proof (int_trunc_bounds a d) as [Hpos Hneg]. fold n in Hpos, Hneg.
  revert H. unfold get_escalation_level. thresholds;
    intros H; try discriminate; injection H as <-;
    unfold Qlt, Qle in *; simpl in *;
    (destruct (Z_le_dec 0 a) as [Ha | Ha];
     [specialize (Hpos Ha); clear Hneg
     | specialize (Hneg ltac:(lia)); clear Hpos]);
    repeat split; intros; try discriminate; try lia; nia.
Qed.

End CommandFacts.

(** ** The further theorems at concrete inputs *)

Module MoreWitnesses.
Import Policy Config Clock Discord Bot Delivery Commands Reading Sim.
Import OffsetFacts RunFacts CommandFacts.

(** Bedtime 22:30, read at 23:00 sharp. *)
Lemma level_by_time_of_day_witness :
  exists q,
    should_send_reminder cfg_2230 (at_time 3 23 0 0) = Ok (Some q) /\
    get_escalation_level q = Some 4.
Proof.
  destruct (level_by_time_of_day cfg_2230 "22:30"
              {| hour := 22; minute := 30 |} (at_time 3 23 0 0)
              eq_refl eq_refl)
    as (q & Hq & _ & _ & _ & H4).
  exists q. split; [exact Hq |]. apply H4. vm_compute. discriminate.
Defined.

(** Bedtime 00:10, read at noon. *)
Lemma early_bedtime_always_in_window_witness :
  let cfg := {| bedtime := Some "00:10"; user_ids := [];
                server_id := None; channel_id := None |} in
  exists q L,
    should_send_reminder cfg (at_time 0 12 0 0) = Ok (Some q) /\
    get_escalation_level q = Some L.
Proof.
  intros cfg.
  apply (early_bedtime_always_in_window cfg "00:10"
           {| hour := 0; minute := 10 |} (at_time 0 12 0 0));
    [reflexivity | reflexivity | reflexivity | simpl; lia].
Defined.

(** A bedtime with seconds, one with hour 25, and one whose hour does not
    fit a C [int]. *)
Lemma should_send_reminder_errors_witness :
  should_send_reminder
    {| bedtime := Some "22:30:00"; user_ids := [];
       server_id := None; channel_id := None |} 0 = Raise ValueError /\
  should_send_reminder cfg_malformed 0 = Raise ValueError /\
  should_send_reminder
    {| bedtime := Some "2147483648:00"; user_ids := [];
       server_id := None; channel_id := None |} 0 = Raise OverflowError.
Proof.
  split; [| split].
  - destruct (should_send_reminder_errors
                {| bedtime := Some "22:30:00"; user_ids := [];
                   server_id := None; channel_id := None |} 0)
      as (_ & Hcolon & _).
    apply (Hcolon "22:30:00"); [reflexivity | vm_compute; discriminate].
  - destruct (should_send_reminder_errors cfg_malformed 0)
      as (_ & _ & _ & Hrange & _).
    destruct (Hrange "25:61" "25" "61" 25 61 eq_refl eq_refl eq_refl eq_refl)
      as (_ & Hout).
    apply Hout; [reflexivity | lia].
  - destruct (should_send_reminder_errors
                {| bedtime := Some "2147483648:00"; user_ids := [];
                   server_id := None; channel_id := None |} 0)
      as (_ & _ & _ & Hrange & _).
    destruct (Hrange "2147483648:00" "2147483648" "00" 2147483648 0
                eq_refl eq_refl eq_refl eq_refl) as (Hover & _).
    apply Hover. reflexivity.
Defined.

(** Ten seconds after a ping at 23:00. *)
Lemma never_twice_within_a_minute_witness :
  let st := {| last_ping_time := Some (at_time 0 23 0 0);
               escalation_level := 4 |} in
  exists r,
    check_bedtime friendly cfg_2230 st
      (at_time 0 23 0 10) (at_time 0 23 0 10) 5%nat = Ok r /\
    sent r = None /\ events r = [].
Proof.
  intros st. eexists. split; [reflexivity |].
  destruct (never_twice_within_a_minute friendly cfg_2230 st
              (at_time 0 23 0 10) (at_time 0 23 0 10) 5%nat _
              (at_time 0 23 0 0) eq_refl eq_refl)
    as (Hsent & Hev & _).
  - vm_compute. reflexivity.
  - split; [exact Hsent | exact Hev].
Defined.

(** The same stored time under level 4 and under level 1. *)
Lemma stored_level_never_read_witness :
  match check_bedtime friendly cfg_2230
          {| last_ping_time := Some (at_time 0 23 0 0);
             escalation_level := 4 |}
          (at_time 0 23 5 0) (at_time 0 23 5 0) 5%nat,
        check_bedtime friendly cfg_2230
          {| last_ping_time := Some (at_time 0 23 0 0);
             escalation_level := 1 |}
          (at_time 0 23 5 0) (at_time 0 23 5 0) 5%nat with
  | Ok r, Ok r' =>
      sent r = sent r' /\ events r = events r' /\
      world_after r = world_after r' /\
      last_ping_time (state_after r) = last_ping_time (state_after r')
  | Raise e, Raise e' => e = e'
  | _, _ => False
  end.
Proof.
  apply (stored_level_never_read friendly cfg_2230). reflexivity.
Defined.

(** The first tick at 22:31. *)
Lemma tick_effects_follow_sent_witness :
  exists r,
    check_bedtime friendly cfg_2230 initial_state
      (at_time 0 22 31 0) (at_time 0 22 31 0) 0%nat = Ok r /\
    state_after r = {| last_ping_time := Some (at_time 0 22 31 0);
                       escalation_level := 1 |}.
Proof.
  eexists. split; [reflexivity |].
  destruct (tick_effects_follow_sent friendly cfg_2230 initial_state
              (at_time 0 22 31 0) (at_time 0 22 31 0) 0%nat _ eq_refl)
    as (_ & Hsome).
  destruct (Hsome 1 eq_refl) as (_ & Hst & _). exact Hst.
Defined.

(** Three ticks ten seconds apart from 23:00 on. *)
Lemma task_loop_raises_first_or_never_witness :
  task_loop friendly cfg_2230
    [tick_at 0 23 0 0; tick_at 0 23 0 10; tick_at 0 23 0 20]
    initial_state 0%nat =
    ({| last_ping_time := Some (at_time 0 23 0 0); escalation_level := 4 |},
     5%nat, [Some 4; None; None], None) /\
  length [Some 4; None; None] =
  length [tick_at 0 23 0 0; tick_at 0 23 0 10; tick_at 0 23 0 20].
Proof.
  split; [reflexivity |].
  destruct (task_loop_raises_first_or_never friendly cfg_2230
              [tick_at 0 23 0 0; tick_at 0 23 0 10; tick_at 0 23 0 20]
              initial_state 0%nat
              {| last_ping_time := Some (at_time 0 23 0 0);
                 escalation_level := 4 |}
              5%nat [Some 4; None; None] None eq_refl)
    as (Hlen & _).
  exact (Hlen eq_refl).
Defined.

Lemma task_loop_state_invariant_witness :
  let st' := {| last_ping_time := Some (at_time 0 23 0 0);
                escalation_level := 4 |} in
  task_loop friendly cfg_2230
    [tick_at 0 23 0 0; tick_at 0 23 0 10; tick_at 0 23 0 20]
    initial_state 0%nat = (st', 5%nat, [Some 4; None; None], None) /\
  0 <= escalation_level st' <= 4.
Proof.
  split; [reflexivity |].
  destruct (task_loop_state_invariant friendly cfg_2230
              [tick_at 0 23 0 0; tick_at 0 23 0 10; tick_at 0 23 0 20]
              initial_state 0%nat
              {| last_ping_time := Some (at_time 0 23 0 0);
                 escalation_level := 4 |}
              5%nat [Some 4; None; None] None
              ltac:(simpl; lia) eq_refl)
    as (Hlev & _).
  exact Hlev.
Defined.

(** Ticks at 23:00:00, 23:00:30, 23:01:00 and 23:01:30: the first and
    the third send. *)
Lemma task_loop_spacing_witness :
  fired_nows
    [tick_at 0 23 0 0; tick_at 0 23 0 30; tick_at 0 23 1 0;
     tick_at 0 23 1 30] [Some 4; None; Some 4; None] =
    [at_time 0 23 0 0; at_time 0 23 1 0] /\
  spaced 60000000 None [at_time 0 23 0 0; at_time 0 23 1 0].
Proof.
  split; [reflexivity |].
  exact (task_loop_spacing friendly cfg_2230
           [tick_at 0 23 0 0; tick_at 0 23 0 30; tick_at 0 23 1 0;
            tick_at 0 23 1 30]
           initial_state 0%nat
           {| last_ping_time := Some (at_time 0 23 1 0);
              escalation_level := 4 |}
           10%nat [Some 4; None; Some 4; None] None eq_refl).
Defined.

(** [status] at 22:50, twenty minutes past the bedtime. *)
Lemma status_agrees_with_tick_witness :
  status cfg_2230 (at_time 0 22 50 0) =
  StatusReply (status_text "2 min interval" 3 20).
Proof.
  destruct (status_agrees_with_tick friendly cfg_2230 initial_state
              (at_time 0 22 50 0) (at_time 0 22 50 0) 0%nat)
    as (_ & _ & _ & Hin).
  destruct (Hin _ (1200000000 # 60000000) 3 eq_refl eq_refl eq_refl)
    as (_ & name & Hname & Hst).
  vm_compute in Hname. injection Hname as <-. exact Hst.
Defined.

(** Level 5. *)
Lemma test_command_rejections_witness :
  test_command friendly true cfg_2230 initial_state 5 0%nat =
  Ok (initial_state, LevelMustBeBetween0And4, 0%nat, []).
Proof.
  destruct (test_command_rejections friendly cfg_2230 initial_state 5 0%nat)
    as (_ & Hrange).
  apply Hrange. lia.
Defined.

(** Two recipients, both reachable. *)
Lemma send_reminders_shape_witness :
  (length (snd (send_reminders friendly cfg_2230 1 0%nat)) <= 3)%nat.
Proof.
  destruct (send_reminders_shape friendly cfg_2230 1 0%nat)
    as (_ & Hlen & _).
  exact Hlen.
Defined.

(** Recipients given as names, not as numbers. *)
Lemma send_reminders_unreadable_ids_witness :
  send_reminders friendly
    {| bedtime := Some "22:30"; user_ids := [JStr "alice"; JStr ""];
       server_id := Some (JInt 1); channel_id := Some (JInt 2) |}
    4 0%nat = (0%nat, []).
Proof.
  apply (send_reminders_unreadable_ids friendly).
  intros v [<- | [<- | []]]; exists ValueError; reflexivity.
Defined.

(** Half a minute before the bedtime. *)
Lemma status_minutes_fit_level_witness :
  -15 <= int_trunc (-1 # 2) <= 0.
Proof.
  destruct (status_minutes_fit_level (-1 # 2) 0 eq_refl) as (H0 & _).
  exact (H0 eq_refl).
Defined.

End MoreWitnesses.
